(** * FastStream subscriber / publisher lifecycle engine

    A shallow embedding of the consumption loops, the subscriber and
    publisher factories and the pull-style accessors of the Kafka
    (aiokafka), Confluent, RabbitMQ, NATS and Redis adapters, followed by
    the properties the design document states about them.

    Conventions of the embedding:
    - the sentinel [EMPTY] ("caller did not specify") is [None] of an
      [option]; Python's [x is not EMPTY] is [is_Some x];
    - a function that may raise returns a [result];
    - Python truthiness ([if x], [x or y]) is written out per type;
    - dictionaries with string keys are [gmap string _];
    - an [async] loop is a function of the finite sequence of observations
      it has made of its environment so far (the value of [self.running]
      at each loop test, the outcome of each fetch). *)

From stdpp Require Import base option list strings gmap.

Open Scope string_scope.
Open Scope Z_scope.
Open Scope list_scope.

(** ** Shared vocabulary *)

(** Modelled from the spec: the [AckPolicy] enumeration of
    [faststream.middlewares] is not among the modules embedded here;
    section 3 of the design names exactly these four members.  The
    modules embedded here refer to [ACK_FIRST], [REJECT_ON_ERROR] and
    [DO_NOTHING]. *)
Inductive AckPolicy : Type :=
  | ACK_FIRST
  | REJECT_ON_ERROR
  | MANUAL_ACK
  | DO_NOTHING.

#[global] Instance AckPolicy_eq_dec : EqDecision AckPolicy.
Proof. solve_decision. Defined.

(** Exceptions raised by the engine itself. *)
Inductive exn : Type :=
  | SetupError (msg : string)
  | AssertionError (msg : string).

Inductive result (A : Type) : Type :=
  | Ok (a : A)
  | Raise (e : exn).
Arguments Ok {A} a.
Arguments Raise {A} e.

(** [x or y] on [Optional[str]]: [None] and the empty string are falsy. *)
Definition str_or (x : option string) (y : string) : string :=
  match x with
  | Some s => if decide (s = "") then y else s
  | None => y
  end.

(** [bool(x)] for [Optional[bytes]]. *)
Definition bytes_truthy (x : option (list Byte.byte)) : bool :=
  match x with
  | Some (_ :: _) => true
  | _ => false
  end.

(** ** aiokafka subscriber: [faststream/kafka/subscriber/usecase.py] *)

Module Kafka.

(** Exception classes seen by [_consume].  In [aiokafka.errors],
    [ConsumerStoppedError] derives from [Exception], not from
    [KafkaError], so the two [except] clauses are disjoint. *)
Inductive error : Type :=
  | KafkaError
  | ConsumerStoppedError
  | OtherError (name : string).

Inductive fetch (M : Type) : Type :=
  | Returns (msg : M)
  | Raises (e : error).
Arguments Returns {M} msg.
Arguments Raises {M} e.

(** One trip round [while self.running]: either the flag is read
    [False], or it is read [True] and [get_msg] is awaited. *)
Inductive tick (M : Type) : Type :=
  | NotRunning
  | Fetched (r : fetch M).
Arguments NotRunning {M}.
Arguments Fetched {M} r.

Inductive event (M : Type) : Type :=
  | Sleep (seconds : Z)
  | ConsumeOne (msg : M).
Arguments Sleep {M} seconds.
Arguments ConsumeOne {M} msg.

Record loop_state (M : Type) : Type := LoopState {
  connected : bool;
  trace : list (event M)
}.
Arguments LoopState {M} connected trace.
Arguments connected {M} l.
Arguments trace {M} l.

Inductive outcome (M : Type) : Type :=
  | Pending (st : loop_state M)
  | Returned (st : loop_state M)
  | Propagated (e : error) (st : loop_state M).
Arguments Pending {M} st.
Arguments Returned {M} st.
Arguments Propagated {M} e st.

Definition final {M} (o : outcome M) : loop_state M :=
  match o with
  | Pending st | Returned st | Propagated _ st => st
  end.

(** [connected = True] before the loop. *)
Definition init {M} : loop_state M := LoopState true [].

Section consume.
Context {M : Type}.
(** [bool(msg)]: the test [if msg:]. *)
Variable truthy : M → bool.

Fixpoint _consume (env : list (tick M)) (st : loop_state M) : outcome M :=
  match env with
  | [] => Pending st
  | NotRunning :: _ => Returned st
  | Fetched (Raises KafkaError) :: env' =>
      let connected' := if connected st then false else connected st in
      _consume env' (LoopState connected' (trace st ++ [Sleep 5]))
  | Fetched (Raises ConsumerStoppedError) :: _ => Returned st
  | Fetched (Raises (OtherError name)) :: _ => Propagated (OtherError name) st
  | Fetched (Returns msg) :: env' =>
      let connected' := if negb (connected st) then true else connected st in
      let trace' := if truthy msg then trace st ++ [ConsumeOne msg] else trace st in
      _consume env' (LoopState connected' trace')
  end.
End consume.

(** [DefaultSubscriber]: a [ConsumerRecord] is always truthy. *)
Definition default_truthy {R : Type} (_ : R) : bool := true.

(** [BatchSubscriber]: [get_msg] yields a tuple, falsy when empty. *)
Definition batch_truthy {R : Type} (msgs : list R) : bool :=
  match msgs with [] => false | _ => true end.

(** [aiokafka.TopicPartition], a named tuple of topic and partition. *)
Record TopicPartition : Type := {
  topic : string;
  partition : Z
}.

(** The destination fields of [LogicSubscriber]. *)
Record LogicSubscriber : Type := {
  topics : list string;
  partitions : list TopicPartition;
  _pattern : option string
}.

Definition add_prefix (prefix : string) (self : LogicSubscriber) : LogicSubscriber :=
  {| topics := (λ t, prefix +:+ t) <$> topics self;
     partitions :=
       (λ p, {| topic := prefix +:+ topic p; partition := partition p |})
         <$> partitions self;
     _pattern := _pattern self |}.

End Kafka.

(** ** Confluent subscriber: [faststream/confluent/subscriber/usecase.py] *)

Module Confluent.

(** [_consume] names one exception class only. *)
Inductive error : Type :=
  | KafkaException
  | OtherError (name : string).

(** [get_msg] returns [Optional[MsgType]]. *)
Inductive fetch (M : Type) : Type :=
  | Returns (msg : option M)
  | Raises (e : error).
Arguments Returns {M} msg.
Arguments Raises {M} e.

Inductive tick (M : Type) : Type :=
  | NotRunning
  | Fetched (r : fetch M).
Arguments NotRunning {M}.
Arguments Fetched {M} r.

Inductive event (M : Type) : Type :=
  | Sleep (seconds : Z)
  | ConsumeOne (msg : M).
Arguments Sleep {M} seconds.
Arguments ConsumeOne {M} msg.

Record loop_state (M : Type) : Type := LoopState {
  connected : bool;
  trace : list (event M)
}.
Arguments LoopState {M} connected trace.
Arguments connected {M} l.
Arguments trace {M} l.

Inductive outcome (M : Type) : Type :=
  | Pending (st : loop_state M)
  | Returned (st : loop_state M)
  | Propagated (e : error) (st : loop_state M).
Arguments Pending {M} st.
Arguments Returned {M} st.
Arguments Propagated {M} e st.

Definition final {M} (o : outcome M) : loop_state M :=
  match o with
  | Pending st | Returned st | Propagated _ st => st
  end.

Definition init {M} : loop_state M := LoopState true [].

Fixpoint _consume {M} (env : list (tick M)) (st : loop_state M) : outcome M :=
  match env with
  | [] => Pending st
  | NotRunning :: _ => Returned st
  | Fetched (Raises KafkaException) :: env' =>
      let connected' := if connected st then false else connected st in
      _consume env' (LoopState connected' (trace st ++ [Sleep 5]))
  | Fetched (Raises (OtherError name)) :: _ => Propagated (OtherError name) st
  | Fetched (Returns msg) :: env' =>
      let connected' := if negb (connected st) then true else connected st in
      let trace' :=
        match msg with
        | Some m => trace st ++ [ConsumeOne m]
        | None => trace st
        end in
      _consume env' (LoopState connected' trace')
  end.

(** [faststream.confluent.schemas.TopicPartition], with the five fields
    [add_prefix] copies. *)
Record TopicPartition : Type := {
  topic : string;
  partition : Z;
  offset : Z;
  metadata : option string;
  leader_epoch : option Z
}.

Section subscriber.
(** The consumer handle, raw messages, decoded envelopes and
    registered handler calls are opaque to this module. *)
Context {Consumer Raw Envelope Call Timeout : Type}.

Record LogicSubscriber : Type := {
  topics : list string;
  partitions : list TopicPartition;
  group_id : option string;
  builder : option (list string → list TopicPartition → Consumer);
  consumer : option Consumer;
  calls : list Call;
  (** number of background tasks added with [add_task] *)
  tasks : nat
}.

(** [LogicSubscriber.__init__]: configuration only; [calls_] stands for
    the handlers registered on the subscriber. *)
Definition __init__ (topics_ : list string) (partitions_ : list TopicPartition)
    (group : option string) (calls_ : list Call) : LogicSubscriber :=
  {| topics := topics_; partitions := partitions_; group_id := group;
     builder := None; consumer := None; calls := calls_; tasks := 0 |}.

Definition _setup (b : list string → list TopicPartition → Consumer)
    (self : LogicSubscriber) : LogicSubscriber :=
  {| topics := topics self; partitions := partitions self;
     group_id := group_id self; builder := Some b;
     consumer := consumer self; calls := calls self; tasks := tasks self |}.

(** [start]: build the consumer, and launch [_consume] when handlers
    are registered. *)
Definition start (self : LogicSubscriber) : result LogicSubscriber :=
  match builder self with
  | None => Raise (AssertionError "You should setup subscriber at first.")
  | Some b =>
      let c := b (topics self) (partitions self) in
      Ok {| topics := topics self; partitions := partitions self;
            group_id := group_id self; builder := builder self;
            consumer := Some c; calls := calls self;
            tasks := match calls self with
                     | [] => tasks self
                     | _ :: _ => S (tasks self)
                     end |}
  end.

(** [consumer.getone(timeout=...)]: a message or nothing, and the
    consumer afterwards. *)
Variable getone : Consumer → Timeout → option Raw * Consumer.
(** [process_msg] of [faststream._internal.subscriber.utils], with the
    subscriber's parser, decoder and middlewares already applied. *)
Variable process_msg : option Raw → option Envelope.

Definition get_one (timeout : Timeout) (self : LogicSubscriber)
    : result (option Envelope * LogicSubscriber) :=
  match consumer self with
  | None => Raise (AssertionError "You should start subscriber at first.")
  | Some c =>
      match calls self with
      | _ :: _ =>
          Raise (AssertionError
            "You can't use `get_one` method if subscriber has registered handlers.")
      | [] =>
          let '(raw_message, c') := getone c timeout in
          Ok (process_msg raw_message,
              {| topics := topics self; partitions := partitions self;
                 group_id := group_id self; builder := builder self;
                 consumer := Some c'; calls := calls self;
                 tasks := tasks self |})
      end
  end.

Definition add_prefix (prefix : string) (self : LogicSubscriber) : LogicSubscriber :=
  {| topics := (λ t, prefix +:+ t) <$> topics self;
     partitions :=
       (λ p, {| topic := prefix +:+ topic p; partition := partition p;
                offset := offset p; metadata := metadata p;
                leader_epoch := leader_epoch p |})
         <$> partitions self;
     group_id := group_id self; builder := builder self;
     consumer := consumer self; calls := calls self; tasks := tasks self |}.
End subscriber.

(** [AsyncConfluentParser(is_manual=...)] as configured by
    [DefaultSubscriber.__init__] and [BatchSubscriber.__init__]. *)
Record AsyncConfluentParser : Type := { is_manual : bool }.

Definition DefaultSubscriber_parser (ack_policy : AckPolicy) : AsyncConfluentParser :=
  {| is_manual := negb (bool_decide (ack_policy = ACK_FIRST)) |}.

End Confluent.

(** ** Factories: warnings and setup errors *)

(** A factory emits deprecation warnings and may raise: a computation
    yields the warnings issued so far and a [result]. *)
Definition W (A : Type) : Type := (list string * result A)%type.

#[global] Instance W_ret : MRet W := λ A a, ([], Ok a).
#[global] Instance W_bind : MBind W := λ A B f c,
  match c with
  | (ws, Ok a) => let '(ws', r) := f a in (ws ++ ws', r)
  | (ws, Raise e) => (ws, Raise e)
  end.

Definition warn (category msg : string) : W unit := ([category +:+ ": " +:+ msg], Ok ()).
Definition raise {A} (e : exn) : W A := ([], Raise e).

(** Values of an [AnyDict]. *)
Inductive pyval : Type :=
  | PyBool (b : bool)
  | PyInt (z : Z)
  | PyStr (s : string).

(** ** [faststream/confluent/subscriber/factory.py] *)

Module ConfluentFactory.

Definition auto_commit_deprecated : string :=
  "`auto_commit` option was deprecated in prior to `ack_policy=AckPolicy.ACK_FIRST`. Scheduled to remove in 0.7.0".
Definition no_ack_deprecated : string :=
  "`no_ack` option was deprecated in prior to `ack_policy=AckPolicy.DO_NOTHING`. Scheduled to remove in 0.7.0".
Definition auto_commit_conflict : string :=
  "You can't use deprecated `auto_commit` and `ack_policy` simultaneously. Please, use `ack_policy` only.".
Definition no_ack_conflict : string :=
  "You can't use deprecated `no_ack` and `ack_policy` simultaneously. Please, use `ack_policy` only.".
Definition max_workers_manual : string :=
  "Max workers not work with manual commit mode.".

(** The local variable [ack_policy] is reassigned as the checks go;
    each step returns its new value. *)
Definition _validate_input_for_misconfigure
    (ack_policy : option AckPolicy) (auto_commit no_ack : option bool)
    (max_workers : Z) : W unit :=
  ack_policy ←
    match auto_commit with
    | Some ac =>
        _ ← warn "DeprecationWarning" auto_commit_deprecated;
        match ack_policy with
        | Some _ => raise (SetupError auto_commit_conflict)
        | None => mret (Some (if ac then ACK_FIRST else REJECT_ON_ERROR))
        end
    | None => mret ack_policy
    end;
  ack_policy ←
    match no_ack with
    | Some na =>
        _ ← warn "DeprecationWarning" no_ack_deprecated;
        match ack_policy with
        | Some _ => raise (SetupError no_ack_conflict)
        | None => mret (if na then Some DO_NOTHING else None)
        end
    | None => mret ack_policy
    end;
  let ack_policy :=
    match ack_policy with
    | None => Some ACK_FIRST
    | Some p => Some p
    end in
  (* [AckPolicy.ACK_FIRST is not AckPolicy.ACK_FIRST and max_workers > 1] *)
  if negb (bool_decide (ACK_FIRST = ACK_FIRST)) && bool_decide (max_workers > 1)
  then raise (SetupError max_workers_manual)
  else mret ().

Record ConfluentSubscriberBaseConfigs : Type := {
  topics : list string;
  partitions : list Confluent.TopicPartition;
  group_id : option string;
  connection_data : gmap string pyval;
  ack_policy : option AckPolicy;
  no_reply : bool
}.

Inductive Subscriber : Type :=
  | SpecificationBatchSubscriber
      (base_configs : ConfluentSubscriberBaseConfigs) (max_records : option Z)
  | SpecificationConcurrentDefaultSubscriber
      (base_configs : ConfluentSubscriberBaseConfigs) (max_workers : Z)
  | SpecificationDefaultSubscriber
      (base_configs : ConfluentSubscriberBaseConfigs).

Definition base_configs_of (s : Subscriber) : ConfluentSubscriberBaseConfigs :=
  match s with
  | SpecificationBatchSubscriber bc _
  | SpecificationConcurrentDefaultSubscriber bc _
  | SpecificationDefaultSubscriber bc => bc
  end.

Record args : Type := {
  a_topics : list string;
  a_partitions : list Confluent.TopicPartition;
  a_batch : bool;
  a_max_records : option Z;
  a_group_id : option string;
  a_connection_data : gmap string pyval;
  a_auto_commit : option bool;
  a_ack_policy : option AckPolicy;
  a_no_ack : option bool;
  a_max_workers : Z;
  a_no_reply : bool
}.

Definition create_subscriber (a : args) : W Subscriber :=
  _ ← _validate_input_for_misconfigure
        (a_ack_policy a) (a_auto_commit a) (a_no_ack a) (a_max_workers a);
  let ack_policy :=
    match a_auto_commit a with
    | Some ac => Some (if ac then ACK_FIRST else REJECT_ON_ERROR)
    | None => a_ack_policy a
    end in
  let ack_policy :=
    match a_no_ack a with
    | Some na => if na then Some DO_NOTHING else None
    | None => ack_policy
    end in
  let ack_policy :=
    match ack_policy with
    | None => Some ACK_FIRST
    | Some p => Some p
    end in
  let '(connection_data, ack_policy) :=
    if bool_decide (ack_policy = Some ACK_FIRST)
    then (<["enable_auto_commit" := PyBool true]> (a_connection_data a),
          Some DO_NOTHING)
    else (a_connection_data a, ack_policy) in
  let base_configs :=
    {| topics := a_topics a; partitions := a_partitions a;
       group_id := a_group_id a; connection_data := connection_data;
       ack_policy := ack_policy; no_reply := a_no_reply a |} in
  if a_batch a then
    mret (SpecificationBatchSubscriber base_configs (a_max_records a))
  else if bool_decide (a_max_workers a > 1) then
    mret (SpecificationConcurrentDefaultSubscriber base_configs (a_max_workers a))
  else
    mret (SpecificationDefaultSubscriber base_configs).

End ConfluentFactory.

(** ** [faststream/rabbit/subscriber/factory.py] *)

Module RabbitFactory.

Definition no_ack_deprecated : string :=
  "`no_ack` option was deprecated in prior to `ack_policy=AckPolicy.DO_NOTHING`. Scheduled to remove in 0.7.0".
Definition no_ack_conflict : string :=
  "You can't use deprecated `no_ack` and `ack_policy` simultaneously. Please, use `ack_policy` only.".

Definition _validate_input_for_misconfigure
    (ack_policy : option AckPolicy) (no_ack : option bool) : W unit :=
  match no_ack with
  | Some _ =>
      _ ← warn "DeprecationWarning" no_ack_deprecated;
      match ack_policy with
      | Some _ => raise (SetupError no_ack_conflict)
      | None => mret ()
      end
  | None => mret ()
  end.

(** [RabbitSubscriberBaseConfigs] receives both the policy and the
    toggle as given; what it makes of them is decided in that class. *)
Record RabbitSubscriberBaseConfigs : Type := {
  queue : string;
  exchange : string;
  ack_policy : option AckPolicy;
  no_ack : option bool;
  no_reply : bool
}.

Inductive Subscriber : Type :=
  | SpecificationSubscriber (base_configs : RabbitSubscriberBaseConfigs).

Definition create_subscriber (queue_ exchange_ : string) (no_reply_ : bool)
    (ack_policy_ : option AckPolicy) (no_ack_ : option bool) : W Subscriber :=
  _ ← _validate_input_for_misconfigure ack_policy_ no_ack_;
  mret (SpecificationSubscriber
          {| queue := queue_; exchange := exchange_; ack_policy := ack_policy_;
             no_ack := no_ack_; no_reply := no_reply_ |}).

End RabbitFactory.

(** ** [faststream/kafka/publisher/factory.py] *)

Module KafkaPublisherFactory.

Record PublisherLogicOptions : Type := {
  key : option (list Byte.byte);
  topic : string;
  partition : option Z;
  headers : option (gmap string string);
  reply_to : string
}.

Inductive Publisher : Type :=
  | SpecificationBatchPublisher (options : PublisherLogicOptions)
  | SpecificationDefaultPublisher (options : PublisherLogicOptions).

Definition create_publisher (batch : bool) (key_ : option (list Byte.byte))
    (topic_ : string) (partition_ : option Z)
    (headers_ : option (gmap string string)) (reply_to_ : string)
    : result Publisher :=
  let logic_options :=
    {| key := key_; topic := topic_; partition := partition_;
       headers := headers_; reply_to := reply_to_ |} in
  if batch then
    if bytes_truthy key_ then
      Raise (SetupError "You can't setup `key` with batch publisher")
    else Ok (SpecificationBatchPublisher logic_options)
  else Ok (SpecificationDefaultPublisher logic_options).

End KafkaPublisherFactory.

(** ** [faststream/confluent/publisher/usecase.py] *)

Module ConfluentPublisher.

(** [d1 | d2] on dictionaries: the right operand wins on a shared key. *)
Definition dict_or (d1 d2 : gmap string string) : gmap string string := d2 ∪ d1.

(** [x or y] for [Optional[bytes]], [Optional[int]] and [str]. *)
Definition bytes_or (x y : option (list Byte.byte)) : option (list Byte.byte) :=
  if bytes_truthy x then x else y.
Definition int_or (x y : option Z) : option Z :=
  match x with
  | Some z => if decide (z = 0) then y else x
  | None => y
  end.
Definition topic_or (x y : string) : string :=
  if decide (x = "") then y else x.

Inductive PublishType : Type := PUBLISH | REQUEST | REPLY.

Section publisher.
Context {Body : Type}.

Record ConfluentPublisherBaseConfigs : Type := {
  c_topic : string;
  c_partition : option Z;
  c_reply_to : string;
  c_headers : option (gmap string string);
  c_key : option (list Byte.byte)
}.

(** [LogicPublisher] with the [key] attribute of [DefaultPublisher];
    [BatchPublisher] never reads it. *)
Record LogicPublisher : Type := {
  topic : string;
  partition : option Z;
  reply_to : string;
  headers : gmap string string;
  key : option (list Byte.byte)
}.

(** [self.headers = base_configs.headers or {}] *)
Definition __init__ (base_configs : ConfluentPublisherBaseConfigs) : LogicPublisher :=
  {| topic := c_topic base_configs;
     partition := c_partition base_configs;
     reply_to := c_reply_to base_configs;
     headers := default ∅ (c_headers base_configs);
     key := c_key base_configs |}.

(** The arguments [KafkaPublishCommand] is built from. *)
Record KafkaPublishCommand : Type := {
  body : list Body;
  cmd_topic : string;
  cmd_key : option (list Byte.byte);
  cmd_partition : option Z;
  cmd_reply_to : string;
  cmd_headers : gmap string string;
  correlation_id : string;
  timestamp_ms : option Z;
  no_confirm : bool;
  _publish_type : PublishType
}.

(** The string the next call of [gen_cor_id()] returns. *)
Variable gen_cor_id : string.

(** [DefaultPublisher.publish]: the command handed to
    [_basic_publish]. *)
Definition publish (self : LogicPublisher) (message : Body) (topic_ : string)
    (key_ : option (list Byte.byte)) (partition_ : option Z)
    (timestamp_ms_ : option Z) (headers_ : option (gmap string string))
    (correlation_id_ : option string) (reply_to_ : string)
    (no_confirm_ : bool) : KafkaPublishCommand :=
  {| body := [message];
     cmd_topic := topic_or topic_ (topic self);
     cmd_key := bytes_or key_ (key self);
     cmd_partition := int_or partition_ (partition self);
     cmd_reply_to := topic_or reply_to_ (reply_to self);
     cmd_headers := dict_or (headers self) (default ∅ headers_);
     correlation_id := str_or correlation_id_ gen_cor_id;
     timestamp_ms := timestamp_ms_;
     no_confirm := no_confirm_;
     _publish_type := PUBLISH |}.

(** [BatchPublisher.publish]: the command handed to
    [_basic_publish_batch]. *)
Definition publish_batch (self : LogicPublisher) (messages : list Body)
    (topic_ : string) (partition_ : option Z) (timestamp_ms_ : option Z)
    (headers_ : option (gmap string string))
    (correlation_id_ : option string) (reply_to_ : string)
    (no_confirm_ : bool) : KafkaPublishCommand :=
  {| body := messages;
     cmd_topic := topic_or topic_ (topic self);
     cmd_key := None;
     cmd_partition := int_or partition_ (partition self);
     cmd_reply_to := topic_or reply_to_ (reply_to self);
     cmd_headers := dict_or (headers self) (default ∅ headers_);
     correlation_id := str_or correlation_id_ gen_cor_id;
     timestamp_ms := timestamp_ms_;
     no_confirm := no_confirm_;
     _publish_type := PUBLISH |}.
End publisher.

End ConfluentPublisher.

(** ** [faststream/redis/subscriber/usecases/list_subscriber.py] *)

Module RedisList.

(** [ListSub], with [name] as the attribute the subscriber reads and
    assigns. *)
Record ListSub : Type := {
  name : string;
  batch : bool;
  max_records : Z
}.

Inductive Parser : Type := RedisListParser | RedisBatchListParser.

(** [RedisSubscriberBaseConfigs]: a mutable object shared with the
    caller; a constructor returns it as it leaves it. *)
Record RedisSubscriberBaseConfigs : Type := {
  default_parser : option Parser;
  default_decoder : option Parser;
  ack_policy : option AckPolicy;
  no_reply : bool
}.

(** [DefaultListMessage(type="list", data=..., channel=...)] *)
Record DefaultListMessage : Type := {
  type : string;
  data : list Byte.byte;
  channel : string
}.

Section subscriber.
Context {Client Envelope Call : Type}.

(** The subscriber keeps the configuration object it was built
    from. *)
Record Subscriber : Type := {
  list_sub : ListSub;
  configs : RedisSubscriberBaseConfigs;
  _client : option Client;
  calls : list Call;
  max_workers : option Z
}.

(** [_ListHandlerMixin.__init__] *)
Definition _ListHandlerMixin__init__ (base_configs : RedisSubscriberBaseConfigs)
    (list_ : ListSub) (calls_ : list Call) : Subscriber :=
  {| list_sub := list_; configs := base_configs; _client := None;
     calls := calls_; max_workers := None |}.

(** [ListSubscriber.__init__]: the subscriber and the caller's
    configuration object after the call. *)
Definition ListSubscriber__init__ (list_ : ListSub)
    (base_configs : RedisSubscriberBaseConfigs) (calls_ : list Call)
    : Subscriber * RedisSubscriberBaseConfigs :=
  let base_configs :=
    {| default_parser := Some RedisListParser;
       default_decoder := Some RedisListParser;
       ack_policy := Some DO_NOTHING;
       no_reply := no_reply base_configs |} in
  (_ListHandlerMixin__init__ base_configs list_ calls_, base_configs).

(** [BatchListSubscriber.__init__] *)
Definition BatchListSubscriber__init__ (base_configs : RedisSubscriberBaseConfigs)
    (list_ : ListSub) (calls_ : list Call)
    : Subscriber * RedisSubscriberBaseConfigs :=
  let base_configs :=
    {| default_parser := Some RedisBatchListParser;
       default_decoder := Some RedisBatchListParser;
       ack_policy := Some DO_NOTHING;
       no_reply := no_reply base_configs |} in
  (_ListHandlerMixin__init__ base_configs list_ calls_, base_configs).

(** [ConcurrentListSubscriber.__init__]: [ConcurrentMixin] keeps
    [max_workers] and hands the rest on to [ListSubscriber.__init__],
    the next constructor in the resolution order. *)
Definition ConcurrentListSubscriber__init__
    (base_configs : RedisSubscriberBaseConfigs) (list_ : ListSub)
    (max_workers_ : Z) (calls_ : list Call)
    : Subscriber * RedisSubscriberBaseConfigs :=
  let '(self, base_configs) := ListSubscriber__init__ list_ base_configs calls_ in
  ({| list_sub := list_sub self; configs := configs self;
      _client := _client self; calls := calls self;
      max_workers := Some max_workers_ |}, base_configs).

(** [_ListHandlerMixin.start]: [tasks] is the number of background tasks
    the subscriber holds.  With tasks running it returns at once; else it
    asserts the client and goes on to the base [start] (the flag of the
    result).  The registered handlers are not looked at. *)
Definition start (tasks : nat) (self : Subscriber) : result bool :=
  match tasks with
  | S _ => Ok false
  | O =>
      match _client self with
      | None => Raise (AssertionError "You should setup subscriber at first.")
      | Some _ => Ok true
      end
  end.

(** The polling loop of [get_one] under [anyio.move_on_after]:
    [polls] are the answers of the [lpop] calls completed before the
    deadline; the walrus leaves the first answer that is not [None],
    or [None] when the deadline cuts the loop. *)
Fixpoint poll_until (polls : list (option (list Byte.byte)))
    : option (list Byte.byte) :=
  match polls with
  | [] => None
  | Some raw :: _ => Some raw
  | None :: polls' => poll_until polls'
  end.

Variable process_msg : DefaultListMessage → option Envelope.

Definition get_one (polls : list (option (list Byte.byte))) (self : Subscriber)
    : result (option Envelope) :=
  match _client self with
  | None => Raise (AssertionError "You should start subscriber at first.")
  | Some _ =>
      match calls self with
      | _ :: _ =>
          Raise (AssertionError
            "You can't use `get_one` method if subscriber has registered handlers.")
      | [] =>
          let raw_message := poll_until polls in
          if bytes_truthy raw_message then
            let redis_incoming_msg :=
              {| type := "list"; data := default [] raw_message;
                 channel := name (list_sub self) |} in
            Ok (process_msg redis_incoming_msg)
          else Ok None
      end
  end.

(** [__aiter__], unrolled over the rounds of its [while True]: each
    round polls under a deadline of 5 and yields when something truthy
    was popped. *)
Definition __aiter__ (rounds : list (list (option (list Byte.byte))))
    (self : Subscriber) : result (list (option Envelope)) :=
  match _client self with
  | None => Raise (AssertionError "You should start subscriber at first.")
  | Some _ =>
      match calls self with
      | _ :: _ =>
          Raise (AssertionError
            "You can't use iterator if subscriber has registered handlers.")
      | [] =>
          Ok (omap (λ polls,
                let raw_message := poll_until polls in
                if bytes_truthy raw_message then
                  Some (process_msg
                          {| type := "list"; data := default [] raw_message;
                             channel := name (list_sub self) |})
                else None) rounds)
      end
  end.

Definition add_prefix (prefix : string) (self : Subscriber) : Subscriber :=
  let new_list :=
    {| name := prefix +:+ name (list_sub self);
       batch := batch (list_sub self);
       max_records := max_records (list_sub self) |} in
  {| list_sub := new_list; configs := configs self; _client := _client self;
     calls := calls self; max_workers := max_workers self |}.
End subscriber.

End RedisList.

(** ** [faststream/nats/subscriber/usecases/core_subscriber.py] *)

Module NatsCore.

(** [NatsParser(pattern=..., is_ack_disabled=...)] *)
Record NatsParser : Type := {
  pattern : string;
  is_ack_disabled : bool
}.

Record NatsSubscriberBaseConfigs : Type := {
  subject : string;
  ack_policy : AckPolicy
}.

Section subscriber.
Context {Subscription Raw Envelope Call Timeout : Type}.

Record CoreSubscriber : Type := {
  queue : string;
  parser : NatsParser;
  _fetch_sub : option Subscription;
  calls : list Call
}.

Definition __init__ (queue_ : string) (base_configs : NatsSubscriberBaseConfigs)
    (calls_ : list Call) : CoreSubscriber :=
  let parser_ :=
    {| pattern := subject base_configs;
       is_ack_disabled :=
         negb (bool_decide (ack_policy base_configs = DO_NOTHING)) |} in
  {| queue := queue_; parser := parser_; _fetch_sub := None; calls := calls_ |}.

(** [client.subscribe(subject=..., queue=...)] *)
Variable subscribe : string → Subscription.
(** [fetch_sub.next_msg(timeout=...)]: [None] stands for the
    [TimeoutError] of the client. *)
Variable next_msg : Subscription → Timeout → option Raw.
Variable process_msg : Raw → Envelope.

Definition get_one (timeout : Timeout) (self : CoreSubscriber)
    : result (option Envelope * CoreSubscriber) :=
  match calls self with
  | _ :: _ =>
      Raise (AssertionError
        "You can't use `get_one` method if subscriber has registered handlers.")
  | [] =>
      let fetch_sub :=
        match _fetch_sub self with
        | None => subscribe (queue self)
        | Some sub => sub
        end in
      let self' :=
        {| queue := queue self; parser := parser self;
           _fetch_sub := Some fetch_sub; calls := calls self |} in
      match next_msg fetch_sub timeout with
      | None => Ok (None, self')
      | Some raw_message => Ok (Some (process_msg raw_message), self')
      end
  end.

(** [__aiter__] over the messages [fetch_sub.messages] delivers. *)
Definition __aiter__ (messages : list Raw) (self : CoreSubscriber)
    : result (list Envelope) :=
  match calls self with
  | _ :: _ =>
      Raise (AssertionError
        "You can't use iterator if subscriber has registered handlers.")
  | [] => Ok (process_msg <$> messages)
  end.
End subscriber.

End NatsCore.

(** ** Ack policy engine *)

Module AckEngine.

Inductive action : Type := Ack | Nack.
Inductive handler_outcome : Type := Success | Failure.

(** Modelled from the spec: the acknowledgement middleware is not among
    the modules embedded here.  Section 4.2 of the design gives its table:
    [AckFirst] acknowledges before the handler, [RejectOnError]
    acknowledges on success and rejects on failure, [ManualAck] and
    [DoNothing] invoke nothing. *)
Definition pre_handler (policy : AckPolicy) : list action :=
  match policy with
  | ACK_FIRST => [Ack]
  | _ => []
  end.

(** Modelled from the spec: the post-handler columns of the table of
    section 4.2 (the middleware is not among the modules embedded here). *)
Definition post_handler (policy : AckPolicy) (o : handler_outcome) : list action :=
  match policy, o with
  | REJECT_ON_ERROR, Success => [Ack]
  | REJECT_ON_ERROR, Failure => [Nack]
  | _, _ => []
  end.

(** Modelled from the spec: step 4 of section 4.1, the pre-handler hook,
    the handler, then the post-handler hook; the result lists the
    acknowledgment primitives invoked while one envelope is processed. *)
Definition process (policy : AckPolicy) (o : handler_outcome) : list action :=
  pre_handler policy ++ post_handler policy o.

End AckEngine.

(** ** Sample values used to exercise the definitions *)

Module Examples.

Definition confluent_args (policy : option AckPolicy) (auto_commit no_ack : option bool)
    : ConfluentFactory.args :=
  {| ConfluentFactory.a_topics := ["orders"];
     ConfluentFactory.a_partitions := [];
     ConfluentFactory.a_batch := false;
     ConfluentFactory.a_max_records := None;
     ConfluentFactory.a_group_id := None;
     ConfluentFactory.a_connection_data := ∅;
     ConfluentFactory.a_auto_commit := auto_commit;
     ConfluentFactory.a_ack_policy := policy;
     ConfluentFactory.a_no_ack := no_ack;
     ConfluentFactory.a_max_workers := 1;
     ConfluentFactory.a_no_reply := false |}.

(** A publisher with two default headers. *)
Definition publisher : ConfluentPublisher.LogicPublisher :=
  ConfluentPublisher.__init__
    {| ConfluentPublisher.c_topic := "orders";
       ConfluentPublisher.c_partition := None;
       ConfluentPublisher.c_reply_to := "";
       ConfluentPublisher.c_headers :=
         Some (<["x-env" := "prod"]> (<["x-team" := "core"]> ∅));
       ConfluentPublisher.c_key := None |}.

(** A Confluent consumer seen as the queue of raw messages still to be
    fetched; [getone] pops its head. *)
Definition getone (c : list string) (timeout : Z) : option string * list string :=
  match c with
  | [] => (None, [])
  | m :: c' => (Some m, c')
  end.

(** A stand-in for [process_msg]: [None] stays [None], a raw message is
    decoded to its length. *)
Definition process_msg (raw : option string) : option nat :=
  String.length <$> raw.

Definition confluent_subscriber (calls : list string)
    : Confluent.LogicSubscriber (Consumer := list string) (Call := string) :=
  Confluent._setup (λ _ _, ["raw-1"; "raw-2"])
    (Confluent.__init__ ["orders"] [] (Some "g") calls).

(** The same subscriber once [start] has run. *)
Definition started (calls : list string)
    : Confluent.LogicSubscriber (Consumer := list string) (Call := string) :=
  match Confluent.start (confluent_subscriber calls) with
  | Ok c => c
  | Raise _ => confluent_subscriber calls
  end.

Definition redis_subscriber (calls : list string)
    : RedisList.Subscriber (Client := unit) (Call := string) :=
  {| RedisList.list_sub :=
       {| RedisList.name := "jobs"; RedisList.batch := false;
          RedisList.max_records := 10 |};
     RedisList.configs :=
       {| RedisList.default_parser := None; RedisList.default_decoder := None;
          RedisList.ack_policy := Some REJECT_ON_ERROR;
          RedisList.no_reply := false |};
     RedisList._client := Some ();
     RedisList.calls := calls;
     RedisList.max_workers := None |}.

Definition redis_process_msg (m : RedisList.DefaultListMessage) : option nat :=
  Some (length (RedisList.data m)).

Definition nats_subscriber (calls : list string)
    : NatsCore.CoreSubscriber (Subscription := list string) (Call := string) :=
  NatsCore.__init__ "workers"
    {| NatsCore.subject := "orders.*"; NatsCore.ack_policy := REJECT_ON_ERROR |}
    calls.

Definition subscribe (queue : string) : list string := ["n-1"].
Definition next_msg (sub : list string) (timeout : Z) : option string := head sub.

End Examples.

From stdpp Require Import pretty.

Open Scope string_scope.
Open Scope Z_scope.
Open Scope list_scope.

(** ** What a consumption loop has done: observations on runs and traces *)

Module KafkaRun.
Import Kafka.

(** A tick that ends the aiokafka loop: the flag read [False], the
    [ConsumerStoppedError] clause, or an exception no clause catches. *)
Definition ends_loop {M} (t : tick M) : bool :=
  match t with
  | NotRunning => true
  | Fetched (Raises ConsumerStoppedError) => true
  | Fetched (Raises (OtherError _)) => true
  | Fetched (Raises KafkaError) => false
  | Fetched (Returns _) => false
  end.

(** The trips round the loop made before the one that ends it. *)
Fixpoint processed {M} (env : list (tick M)) : list (tick M) :=
  match env with
  | [] => []
  | t :: env' => if ends_loop t then [] else t :: processed env'
  end.

Definition fetched_messages {M} (env : list (tick M)) : list M :=
  omap (λ t, match t with Fetched (Returns m) => Some m | _ => None end) env.

Definition transient_failures {M} (env : list (tick M)) : nat :=
  length (omap (λ t, match t with
                     | Fetched (Raises KafkaError) => Some ()
                     | _ => None
                     end) env).

Definition delivered {M} (tr : list (event M)) : list M :=
  omap (λ e, match e with ConsumeOne m => Some m | Sleep _ => None end) tr.

Definition sleeps {M} (tr : list (event M)) : list Z :=
  omap (λ e, match e with Sleep s => Some s | ConsumeOne _ => None end) tr.

(** [BatchSubscriber.get_msg]: [messages] is the dictionary [getmany]
    answered, as its items in order.  An empty dictionary is slept on
    (the flag of the result) and gives the empty tuple; otherwise the
    per-partition lists are chained. *)
Definition BatchSubscriber_get_msg {R} (messages : list (TopicPartition * list R))
    : list R * bool :=
  match messages with
  | [] => ([], true)
  | _ :: _ => (concat (snd <$> messages), false)
  end.

End KafkaRun.

Module ConfluentRun.
Import Confluent.

Definition ends_loop {M} (t : tick M) : bool :=
  match t with
  | NotRunning => true
  | Fetched (Raises (OtherError _)) => true
  | Fetched (Raises KafkaException) => false
  | Fetched (Returns _) => false
  end.

Fixpoint processed {M} (env : list (tick M)) : list (tick M) :=
  match env with
  | [] => []
  | t :: env' => if ends_loop t then [] else t :: processed env'
  end.

(** The messages the fetches returned, empty fetches left out. *)
Definition fetched_messages {M} (env : list (tick M)) : list M :=
  omap (λ t, match t with Fetched (Returns (Some m)) => Some m | _ => None end) env.

Definition transient_failures {M} (env : list (tick M)) : nat :=
  length (omap (λ t, match t with
                     | Fetched (Raises KafkaException) => Some ()
                     | _ => None
                     end) env).

Definition delivered {M} (tr : list (event M)) : list M :=
  omap (λ e, match e with ConsumeOne m => Some m | Sleep _ => None end) tr.

Definition sleeps {M} (tr : list (event M)) : list Z :=
  omap (λ e, match e with Sleep s => Some s | ConsumeOne _ => None end) tr.

(** [BatchSubscriber.get_msg]: [getmany(...) or None]. *)
Definition BatchSubscriber_get_msg {R} (records : list R) : option (list R) :=
  match records with
  | [] => None
  | _ :: _ => Some records
  end.

End ConfluentRun.

(** ** aiokafka subscriber, continued *)

Module KafkaSubscriber.

(** [topic_names]: the pattern if there is one, else the topics if there
    are any, else one name per assigned partition. *)
Definition topic_names (self : Kafka.LogicSubscriber) : list string :=
  let by_topics :=
    match Kafka.topics self with
    | _ :: _ => Kafka.topics self
    | [] => (λ p, Kafka.topic p +:+ "-" +:+ pretty (Kafka.partition p))
              <$> Kafka.partitions self
    end in
  match Kafka._pattern self with
  | Some p => if decide (p = "") then by_topics else [p]
  | None => by_topics
  end.

(** What [start] asks of the consumer it has built. *)
Inductive consumer_call : Type :=
  | Subscribe (topics : list string) (pattern : option string)
  | Assign (partitions : list Kafka.TopicPartition)
  | Start.

Definition pattern_truthy (p : option string) : bool :=
  match p with
  | Some s => negb (bool_decide (s = ""))
  | None => false
  end.

(** [start], given that [_setup] has provided the builder: the calls made
    on the consumer, in order. *)
Definition start_calls (self : Kafka.LogicSubscriber) : list consumer_call :=
  (if bool_decide (Kafka.topics self ≠ []) || pattern_truthy (Kafka._pattern self)
   then [Subscribe (Kafka.topics self) (Kafka._pattern self)]
   else match Kafka.partitions self with
        | _ :: _ => [Assign (Kafka.partitions self)]
        | [] => []
        end)
  ++ [Start].

(** Outcomes of [get_one]: besides its two assertions, the unpacking
    [((raw_message,),) = raw_messages.values()] raises [ValueError] on any
    other shape. *)
Inductive get_one_outcome (A : Type) : Type :=
  | Value (a : A)
  | Assertion (msg : string)
  | ValueError.
Arguments Value {A} a.
Arguments Assertion {A} msg.
Arguments ValueError {A}.

Section get_one.
Context {Consumer Record_ Envelope Call : Type}.
Variable process_msg : Record_ → option Envelope.

(** [raw_messages] is the dictionary answered by
    [getmany(timeout_ms=timeout * 1000, max_records=1)], as its items. *)
Definition get_one (consumer : option Consumer) (calls : list Call)
    (raw_messages : list (Kafka.TopicPartition * list Record_))
    : get_one_outcome (option Envelope) :=
  match consumer with
  | None => Assertion "You should start subscriber at first."
  | Some _ =>
      match calls with
      | _ :: _ =>
          Assertion "You can't use `get_one` method if subscriber has registered handlers."
      | [] =>
          match raw_messages with
          | [] => Value None
          | [(_, [raw_message])] => Value (process_msg raw_message)
          | _ => ValueError
          end
      end
  end.
End get_one.

End KafkaSubscriber.

(** ** Confluent subscriber, continued *)

Module ConfluentSubscriber.

Definition topic_names {Consumer Call : Type}
    (self : Confluent.LogicSubscriber (Consumer := Consumer) (Call := Call))
    : list string :=
  match Confluent.topics self with
  | _ :: _ => Confluent.topics self
  | [] => (λ p, Confluent.topic p +:+ "-" +:+ pretty (Confluent.partition p))
            <$> Confluent.partitions self
  end.

(** [close]: [super_close] is what the task mixin makes of the
    background tasks; the consumer, if any, is stopped and forgotten. *)
Definition close {Consumer Call : Type} (super_close : nat → nat)
    (self : Confluent.LogicSubscriber (Consumer := Consumer) (Call := Call))
    : Confluent.LogicSubscriber (Consumer := Consumer) (Call := Call) :=
  {| Confluent.topics := Confluent.topics self;
     Confluent.partitions := Confluent.partitions self;
     Confluent.group_id := Confluent.group_id self;
     Confluent.builder := Confluent.builder self;
     Confluent.consumer := None;
     Confluent.calls := Confluent.calls self;
     Confluent.tasks := super_close (Confluent.tasks self) |}.

End ConfluentSubscriber.

(** ** Redis list subscribers, continued: the consuming path *)

Module RedisListConsume.

(** [BatchListMessage(type="blist", channel=..., data=...)] *)
Record BatchListMessage : Type := {
  b_type : string;
  b_channel : string;
  b_data : list (list Byte.byte)
}.

(** What one call of [_get_msgs] does. *)
Inductive action : Type :=
  | ConsumeOne (msg : RedisList.DefaultListMessage)
  | ConsumeBatch (msg : BatchListMessage)
  | SleepPollingInterval.

Section get_msgs.
Context {Client Call : Type}.

(** [ListSubscriber._get_msgs]: [raw_msg] is the answer of [blpop],
    [None] on timeout and else the pair of the key and the popped data;
    a pair is truthy whatever it holds. *)
Definition ListSubscriber_get_msgs
    (self : RedisList.Subscriber (Client := Client) (Call := Call))
    (raw_msg : option (list Byte.byte * list Byte.byte)) : list action :=
  match raw_msg with
  | Some (_, msg_data) =>
      [ConsumeOne {| RedisList.type := "list"; RedisList.data := msg_data;
                     RedisList.channel := RedisList.name (RedisList.list_sub self) |}]
  | None => []
  end.

(** [BatchListSubscriber._get_msgs]: [raw_msgs] is the answer of
    [lpop(name, count=max_records)], [None] or a list. *)
Definition BatchListSubscriber_get_msgs
    (self : RedisList.Subscriber (Client := Client) (Call := Call))
    (raw_msgs : option (list (list Byte.byte))) : list action :=
  match raw_msgs with
  | Some (m :: ms) =>
      [ConsumeBatch {| b_type := "blist";
                       b_channel := RedisList.name (RedisList.list_sub self);
                       b_data := m :: ms |}]
  | _ => [SleepPollingInterval]
  end.
End get_msgs.

End RedisListConsume.

(** ** Confluent publisher, continued *)

Module ConfluentPublisherMore.
Import ConfluentPublisher.

(** [LogicPublisher.add_prefix] *)
Definition add_prefix (prefix : string) (self : LogicPublisher) : LogicPublisher :=
  {| topic := prefix +:+ topic self;
     partition := partition self;
     reply_to := reply_to self;
     headers := headers self;
     key := key self |}.

Section request.
Context {Body Timeout : Type}.

(** The arguments [request] builds its [KafkaPublishCommand] from. *)
Record RequestCommand : Type := {
  r_body : Body;
  r_topic : string;
  r_key : option (list Byte.byte);
  r_partition : option Z;
  r_headers : gmap string string;
  r_correlation_id : string;
  r_timestamp_ms : option Z;
  r_timeout : Timeout;
  r_publish_type : PublishType
}.

Variable gen_cor_id : string.

(** [LogicPublisher.request] *)
Definition LogicPublisher_request (self : LogicPublisher) (message : Body)
    (topic_ : string) (key_ : option (list Byte.byte)) (partition_ : option Z)
    (timestamp_ms_ : option Z) (headers_ : option (gmap string string))
    (correlation_id_ : option string) (timeout_ : Timeout) : RequestCommand :=
  {| r_body := message;
     r_topic := topic_or topic_ (topic self);
     r_key := key_;
     r_partition := int_or partition_ (partition self);
     r_headers := dict_or (headers self) (default ∅ headers_);
     r_correlation_id := str_or correlation_id_ gen_cor_id;
     r_timestamp_ms := timestamp_ms_;
     r_timeout := timeout_;
     r_publish_type := REQUEST |}.

(** [DefaultPublisher.request]: the parent's, with [key or self.key]. *)
Definition DefaultPublisher_request (self : LogicPublisher) (message : Body)
    (topic_ : string) (key_ : option (list Byte.byte)) (partition_ : option Z)
    (timestamp_ms_ : option Z) (headers_ : option (gmap string string))
    (correlation_id_ : option string) (timeout_ : Timeout) : RequestCommand :=
  LogicPublisher_request self message topic_ (bytes_or key_ (key self)) partition_
    timestamp_ms_ headers_ correlation_id_ timeout_.
End request.

End ConfluentPublisherMore.

(** ** [faststream/redis/schemas/stream_sub.py] *)

Module RedisStreamSub.

(** [bool(x)] for [Optional[str]]. *)
Definition str_truthy (x : option string) : bool :=
  match x with
  | Some s => negb (bool_decide (s = ""))
  | None => false
  end.

Record StreamSub : Type := {
  name : option string;
  polling_interval : option Z;
  group : option string;
  consumer : option string;
  batch : bool;
  no_ack : bool;
  last_id : string;
  maxlen : option Z;
  max_records : option Z
}.

Definition group_consumer_both : string :=
  "You should specify `group` and `consumer` both".
Definition no_ack_no_effect : string :=
  "`no_ack` has no effect with consumer group".

Definition __init__ (stream : option string) (polling_interval_ : option Z)
    (group_ consumer_ : option string) (batch_ no_ack_ : bool)
    (last_id_ : option string) (maxlen_ max_records_ : option Z) : W StreamSub :=
  if (str_truthy group_ && negb (str_truthy consumer_))
     || (negb (str_truthy group_) && str_truthy consumer_)
  then raise (SetupError group_consumer_both)
  else
    _ ← (if str_truthy group_ && str_truthy consumer_ && no_ack_
         then warn "RuntimeWarning" no_ack_no_effect
         else mret ());
    let last_id_ :=
      match last_id_ with
      | None => "$"
      | Some l => l
      end in
    mret {| name := stream; polling_interval := polling_interval_;
            group := group_; consumer := consumer_; batch := batch_;
            no_ack := no_ack_; last_id := last_id_; maxlen := maxlen_;
            max_records := max_records_ |}.

End RedisStreamSub.

(** ** [faststream/rabbit/schemas/exchange.py] *)

Module RabbitExchangeSchema.

Section exchange.
(** The exchange types ([ExchangeType]) and the argument dictionaries
    are carried as they are given. *)
Context {ExchangeType AnyDict Timeout : Type}.

#[warnings="-register-all"]
Inductive RabbitExchange : Type :=
  MkRabbitExchange {
    name : string;
    type : ExchangeType;
    durable : bool;
    auto_delete : bool;
    robust : bool;
    passive : option bool;
    timeout : option Timeout;
    arguments : option AnyDict;
    declare : bool;
    bind_to : option RabbitExchange;
    bind_arguments : option AnyDict;
    routing_key : string
  }.

Definition routing_key_without_bind_to : string :=
  String (Ascii.ascii_of_nat 10)
    "RabbitExchange `routing_key` is using to bind exchange to another one."
  +:+ String (Ascii.ascii_of_nat 10)
    "It can be used only with the `bind_to` argument, please setup it too.".
Definition passive_deprecated : string :=
  "Use `declare` instead. Will be removed in the 0.6.0 release.".

Definition __init__ (name_ : string) (type_ : ExchangeType)
    (durable_ auto_delete_ declare_ : bool) (passive_ : option bool)
    (arguments_ : option AnyDict) (timeout_ : option Timeout) (robust_ : bool)
    (bind_to_ : option RabbitExchange) (bind_arguments_ : option AnyDict)
    (routing_key_ : string) : W RabbitExchange :=
  _ ← (if negb (bool_decide (routing_key_ = ""))
          && match bind_to_ with None => true | Some _ => false end
       then warn "RuntimeWarning" routing_key_without_bind_to
       else mret ());
  declare' ←
    match passive_ with
    | Some p =>
        _ ← warn "DeprecationWarning" passive_deprecated;
        mret (negb p)
    | None => mret declare_
    end;
  mret {| name := name_; type := type_; durable := durable_;
          auto_delete := auto_delete_; robust := robust_; passive := passive_;
          timeout := timeout_; arguments := arguments_; declare := declare';
          bind_to := bind_to_; bind_arguments := bind_arguments_;
          routing_key := routing_key_ |}.

(** The [routing] property: [self.routing_key or self.name]. *)
Definition routing (self : RabbitExchange) : string :=
  if decide (routing_key self = "") then name self else routing_key self.
End exchange.

End RabbitExchangeSchema.

(** * Properties *)

(** ** The consumption loops *)

Section kafka_loop.
Context {M : Type} (truthy : M → bool).
Import Kafka.

Lemma kafka_consume_app (l1 l2 : list (tick M)) (st : loop_state M) :
  _consume truthy (l1 ++ l2) st =
  match _consume truthy l1 st with
  | Pending st' => _consume truthy l2 st'
  | o => o
  end.
Proof.
  revert st. induction l1 as [|t l1 IH]; intros st; [done|].
  destruct t as [|[msg|[| |name]]]; simpl; auto.
Qed.

Lemma kafka_trace_grows (env : list (tick M)) (st : loop_state M) :
  ∃ tl, trace (final (_consume truthy env st)) = trace st ++ tl.
Proof.
  revert st. induction env as [|t env IH]; intros st.
  - exists []. simpl. by rewrite app_nil_r.
  - destruct t as [|[msg|[| |name]]]; simpl;
      try (exists []; simpl; by rewrite app_nil_r).
    + destruct (IH (LoopState (if negb (connected st) then true else connected st)
                      (if truthy msg then trace st ++ [ConsumeOne msg] else trace st)))
        as [tl Htl].
      rewrite Htl. simpl. destruct (truthy msg).
      * exists (ConsumeOne msg :: tl). by rewrite <- app_assoc.
      * by exists tl.
    + destruct (IH (LoopState (if connected st then false else connected st)
                      (trace st ++ [Sleep 5]))) as [tl Htl].
      rewrite Htl. simpl. exists (Sleep 5 :: tl). by rewrite <- app_assoc.
Qed.

Lemma kafka_failures (K : nat) (st : loop_state M) :
  _consume truthy (replicate K (Fetched (Raises KafkaError))) st =
  Pending (LoopState (match K with O => connected st | S _ => false end)
                     (trace st ++ replicate K (Sleep 5))).
Proof.
  revert st. induction K as [|K IH]; intros [c tr]; simpl.
  - by rewrite app_nil_r.
  - rewrite IH. simpl. rewrite <- app_assoc. simpl.
    by destruct K, c.
Qed.
End kafka_loop.

Section confluent_loop.
Context {M : Type}.
Import Confluent.

Lemma confluent_consume_app (l1 l2 : list (tick M)) (st : loop_state M) :
  _consume (l1 ++ l2) st =
  match _consume l1 st with
  | Pending st' => _consume l2 st'
  | o => o
  end.
Proof.
  revert st. induction l1 as [|t l1 IH]; intros st; [done|].
  destruct t as [|[msg|[|name]]]; simpl; auto.
Qed.

Lemma confluent_trace_grows (env : list (tick M)) (st : loop_state M) :
  ∃ tl, trace (final (_consume env st)) = trace st ++ tl.
Proof.
  revert st. induction env as [|t env IH]; intros st.
  - exists []. simpl. by rewrite app_nil_r.
  - destruct t as [|[msg|[|name]]]; simpl;
      try (exists []; simpl; by rewrite app_nil_r).
    + destruct (IH (LoopState (if negb (connected st) then true else connected st)
                      (match msg with
                       | Some m => trace st ++ [ConsumeOne m]
                       | None => trace st
                       end))) as [tl Htl].
      rewrite Htl. simpl. destruct msg as [m|].
      * exists (ConsumeOne m :: tl). by rewrite <- app_assoc.
      * by exists tl.
    + destruct (IH (LoopState (if connected st then false else connected st)
                      (trace st ++ [Sleep 5]))) as [tl Htl].
      rewrite Htl. simpl. exists (Sleep 5 :: tl). by rewrite <- app_assoc.
Qed.

Lemma confluent_failures (K : nat) (st : loop_state M) :
  _consume (replicate K (Fetched (Raises KafkaException))) st =
  Pending (LoopState (match K with O => connected st | S _ => false end)
                     (trace st ++ replicate K (Sleep 5))).
Proof.
  revert st. induction K as [|K IH]; intros [c tr]; simpl.
  - by rewrite app_nil_r.
  - rewrite IH. simpl. rewrite <- app_assoc. simpl.
    by destruct K, c.
Qed.
End confluent_loop.

(** C1.  Transient-error recovery.  When the first [K] fetches of a run
    raise the transient broker error ([KafkaError] for aiokafka,
    [KafkaException] for Confluent) and the next fetch returns a message,
    then, in both loops: after the [K] failures the loop is still pending,
    has slept 5 exactly [K] times and nothing else, and is degraded
    ([connected] is false) as soon as [K > 0]; after the successful fetch it
    is pending and connected again and has handed the message to
    [consume_one] right after the [K] sleeps; and whatever the run brings
    afterwards, its trace starts with these [K] sleeps and that delivery. *)
Theorem C1_transient_recovery {M : Type} (truthy : M → bool) (K : nat) (msg : M)
    (rest_k : list (Kafka.tick M)) (rest_c : list (Confluent.tick M)) :
  truthy msg = true →
  let kfail := replicate K (Kafka.Fetched (Kafka.Raises Kafka.KafkaError)) in
  let cfail := replicate K (Confluent.Fetched (Confluent.Raises Confluent.KafkaException)) in
  (Kafka._consume truthy kfail Kafka.init =
     Kafka.Pending (Kafka.LoopState (bool_decide (K = 0%nat)) (replicate K (Kafka.Sleep 5)))
   ∧ Kafka._consume truthy (kfail ++ [Kafka.Fetched (Kafka.Returns msg)]) Kafka.init =
     Kafka.Pending (Kafka.LoopState true
                      (replicate K (Kafka.Sleep 5) ++ [Kafka.ConsumeOne msg]))
   ∧ ∃ tl, Kafka.trace (Kafka.final
             (Kafka._consume truthy (kfail ++ Kafka.Fetched (Kafka.Returns msg) :: rest_k)
                Kafka.init)) =
           replicate K (Kafka.Sleep 5) ++ Kafka.ConsumeOne msg :: tl)
  ∧
  (Confluent._consume cfail Confluent.init =
     Confluent.Pending
       (Confluent.LoopState (bool_decide (K = 0%nat)) (replicate K (Confluent.Sleep 5)))
   ∧ Confluent._consume (cfail ++ [Confluent.Fetched (Confluent.Returns (Some msg))])
       Confluent.init =
     Confluent.Pending (Confluent.LoopState true
                          (replicate K (Confluent.Sleep 5) ++ [Confluent.ConsumeOne msg]))
   ∧ ∃ tl, Confluent.trace (Confluent.final
             (Confluent._consume
                (cfail ++ Confluent.Fetched (Confluent.Returns (Some msg)) :: rest_c)
                Confluent.init)) =
           replicate K (Confluent.Sleep 5) ++ Confluent.ConsumeOne msg :: tl).
Proof.
  intros Htruthy kfail cfail. split.
  - assert (Hfail : Kafka._consume truthy kfail Kafka.init =
       Kafka.Pending (Kafka.LoopState (bool_decide (K = 0%nat))
                        (replicate K (Kafka.Sleep 5)))).
    { unfold kfail. rewrite kafka_failures. simpl. by destruct K. }
    split; [exact Hfail|]. split.
    + rewrite kafka_consume_app, Hfail. simpl. rewrite Htruthy.
      by destruct (bool_decide (K = 0%nat)).
    + rewrite kafka_consume_app, Hfail. simpl. rewrite Htruthy.
      destruct (kafka_trace_grows truthy rest_k
                  (Kafka.LoopState
                     (if negb (bool_decide (K = 0%nat)) then true
                      else bool_decide (K = 0%nat))
                     (replicate K (Kafka.Sleep 5) ++ [Kafka.ConsumeOne msg])))
        as [tl Htl].
      exists tl. rewrite Htl. simpl. by rewrite <- app_assoc.
  - assert (Hfail : Confluent._consume cfail Confluent.init =
       Confluent.Pending (Confluent.LoopState (bool_decide (K = 0%nat))
                            (replicate K (Confluent.Sleep 5)))).
    { unfold cfail. rewrite confluent_failures. simpl. by destruct K. }
    split; [exact Hfail|]. split.
    + rewrite confluent_consume_app, Hfail. simpl.
      by destruct (bool_decide (K = 0%nat)).
    + rewrite confluent_consume_app, Hfail. simpl.
      destruct (confluent_trace_grows rest_c
                  (Confluent.LoopState
                     (if negb (bool_decide (K = 0%nat)) then true
                      else bool_decide (K = 0%nat))
                     (replicate K (Confluent.Sleep 5) ++ [Confluent.ConsumeOne msg])))
        as [tl Htl].
      exists tl. rewrite Htl. simpl. by rewrite <- app_assoc.
Qed.

(** Two failed fetches, then the record "m1". *)
Lemma C1_transient_recovery_witness :
  Kafka.default_truthy "m1" = true ∧
  Kafka._consume Kafka.default_truthy
    (replicate 2 (Kafka.Fetched (Kafka.Raises Kafka.KafkaError))
       ++ [Kafka.Fetched (Kafka.Returns "m1")]) Kafka.init =
  Kafka.Pending (Kafka.LoopState true
                   [Kafka.Sleep 5; Kafka.Sleep 5; Kafka.ConsumeOne "m1"]).
Proof.
  split; [reflexivity|].
  exact (proj1 (proj2 (proj1
    (C1_transient_recovery Kafka.default_truthy 2 "m1"
       [Kafka.NotRunning] [Confluent.NotRunning] eq_refl)))).
Defined.

(** C2, as the two loops have it.  In the aiokafka loop a
    [ConsumerStoppedError] raised by the fetch while the loop is pending
    makes [_consume] return, with the state it had and nothing propagated.  The Confluent loop has no such
    clause: there a [KafkaException] is followed by the sleep of 5 and the
    next trip round the loop, and every other exception propagates. *)
Theorem C2_terminal_error {M : Type} (truthy : M → bool)
    (pre rest : list (Kafka.tick M)) (st : Kafka.loop_state M)
    (cpre crest : list (Confluent.tick M)) (cst : Confluent.loop_state M) :
  Kafka._consume truthy pre Kafka.init = Kafka.Pending st →
  Confluent._consume cpre Confluent.init = Confluent.Pending cst →
  Kafka._consume truthy
    (pre ++ Kafka.Fetched (Kafka.Raises Kafka.ConsumerStoppedError) :: rest)
    Kafka.init = Kafka.Returned st
  ∧ Confluent._consume
      (cpre ++ Confluent.Fetched (Confluent.Raises Confluent.KafkaException) :: crest)
      Confluent.init =
    Confluent._consume crest
      (Confluent.LoopState false (Confluent.trace cst ++ [Confluent.Sleep 5]))
  ∧ ∀ name,
      Confluent._consume
        (cpre ++ Confluent.Fetched (Confluent.Raises (Confluent.OtherError name)) :: crest)
        Confluent.init =
      Confluent.Propagated (Confluent.OtherError name) cst.
Proof.
  intros Hk Hc. repeat split.
  - by rewrite kafka_consume_app, Hk.
  - rewrite confluent_consume_app, Hc. simpl. by destruct (Confluent.connected cst).
  - intros name. by rewrite confluent_consume_app, Hc.
Qed.

Lemma C2_terminal_error_witness :
  Kafka._consume Kafka.default_truthy
    ([Kafka.Fetched (Kafka.Returns "m1")]
       ++ Kafka.Fetched (Kafka.Raises Kafka.ConsumerStoppedError)
       :: [Kafka.Fetched (Kafka.Returns "m2")])
    Kafka.init =
  Kafka.Returned (Kafka.LoopState true [Kafka.ConsumeOne "m1"]).
Proof.
  exact (proj1 (C2_terminal_error Kafka.default_truthy
    [Kafka.Fetched (Kafka.Returns "m1")] [Kafka.Fetched (Kafka.Returns "m2")]
    (Kafka.LoopState true [Kafka.ConsumeOne "m1"])
    [Confluent.Fetched (Confluent.Returns (Some "m1"))] []
    (Confluent.LoopState true [Confluent.ConsumeOne "m1"])
    eq_refl eq_refl)).
Defined.

(** C2 does not hold of the Confluent loop: whichever exception the fetch
    raises there, the loop does not return on it.  An exception that is not
    a [KafkaException] propagates out of [_consume]; a [KafkaException] is
    slept on and the loop goes on. *)
Lemma C2_counterexample :
  Confluent._consume (M := string)
    [Confluent.Fetched (Confluent.Raises (Confluent.OtherError "RuntimeError"))]
    Confluent.init =
  Confluent.Propagated (Confluent.OtherError "RuntimeError") Confluent.init
  ∧ Confluent._consume (M := string)
      [Confluent.Fetched (Confluent.Raises Confluent.KafkaException)]
      Confluent.init =
    Confluent.Pending (Confluent.LoopState false [Confluent.Sleep 5])
  ∧ ∀ (e : Confluent.error) (st : Confluent.loop_state string),
      Confluent._consume [Confluent.Fetched (Confluent.Raises e)] Confluent.init
      ≠ Confluent.Returned st.
Proof.
  split; [reflexivity|]. split; [reflexivity|].
  intros [|name] st; discriminate.
Qed.

(** ** Subscriber factories *)

(** The last check of the Confluent validation compares [ACK_FIRST] with
    itself, so it never fires: an explicit policy alone always passes. *)
Lemma confluent_validate_explicit_policy (p : AckPolicy) (max_workers : Z) :
  ConfluentFactory._validate_input_for_misconfigure (Some p) None None max_workers
  = ([], Ok ()).
Proof. reflexivity. Qed.

(** C3.  Fan-out with a manual-commit policy is not rejected by the
    Confluent factory: given [REJECT_ON_ERROR] and [max_workers = 2] it
    issues no warning, raises nothing and builds a concurrent subscriber
    with that policy; and for every explicit policy and every
    [max_workers] the validation passes. *)
Theorem C3_fan_out_manual_commit_accepted :
  ConfluentFactory.create_subscriber
    {| ConfluentFactory.a_topics := ["orders"];
       ConfluentFactory.a_partitions := [];
       ConfluentFactory.a_batch := false;
       ConfluentFactory.a_max_records := None;
       ConfluentFactory.a_group_id := Some "g";
       ConfluentFactory.a_connection_data := ∅;
       ConfluentFactory.a_auto_commit := None;
       ConfluentFactory.a_ack_policy := Some REJECT_ON_ERROR;
       ConfluentFactory.a_no_ack := None;
       ConfluentFactory.a_max_workers := 2;
       ConfluentFactory.a_no_reply := false |}
  = ([], Ok (ConfluentFactory.SpecificationConcurrentDefaultSubscriber
               {| ConfluentFactory.topics := ["orders"];
                  ConfluentFactory.partitions := [];
                  ConfluentFactory.group_id := Some "g";
                  ConfluentFactory.connection_data := ∅;
                  ConfluentFactory.ack_policy := Some REJECT_ON_ERROR;
                  ConfluentFactory.no_reply := false |} 2))
  ∧ ∀ (p : AckPolicy) (max_workers : Z),
      ConfluentFactory._validate_input_for_misconfigure (Some p) None None max_workers
      = ([], Ok ()).
Proof. split; [reflexivity|]. intros p mw. reflexivity. Qed.




(** The RabbitMQ factory does not translate a lone [no_ack] itself: it
    warns and hands the toggle, with the policy still unset, to
    [RabbitSubscriberBaseConfigs]. *)
Lemma rabbit_toggle_alone_passed_on (queue exchange : string) (no_reply b : bool) :
  RabbitFactory.create_subscriber queue exchange no_reply None (Some b)
  = (["DeprecationWarning: " +:+ RabbitFactory.no_ack_deprecated],
     Ok (RabbitFactory.SpecificationSubscriber
           {| RabbitFactory.queue := queue; RabbitFactory.exchange := exchange;
              RabbitFactory.ack_policy := None; RabbitFactory.no_ack := Some b;
              RabbitFactory.no_reply := no_reply |})).
Proof. reflexivity. Qed.

(** ** Publishers *)

(** C8.  [create_publisher] with [batch=True] and a non-empty key raises
    [SetupError] and builds no publisher, so nothing can be sent through
    it; with [batch=False] every key is accepted and the default publisher
    carries it. *)
Theorem C8_batch_key_rejected (key : option (list Byte.byte)) (topic : string)
    (partition : option Z) (headers : option (gmap string string))
    (reply_to : string) :
  (∀ k, key = Some k → k ≠ [] →
     KafkaPublisherFactory.create_publisher true key topic partition headers reply_to
     = Raise (SetupError "You can't setup `key` with batch publisher"))
  ∧ KafkaPublisherFactory.create_publisher false key topic partition headers reply_to
    = Ok (KafkaPublisherFactory.SpecificationDefaultPublisher
            {| KafkaPublisherFactory.key := key;
               KafkaPublisherFactory.topic := topic;
               KafkaPublisherFactory.partition := partition;
               KafkaPublisherFactory.headers := headers;
               KafkaPublisherFactory.reply_to := reply_to |}).
Proof.
  split; [|reflexivity].
  intros k -> Hk. destruct k as [|b k]; [done|reflexivity].
Qed.

Lemma C8_batch_key_rejected_witness :
  KafkaPublisherFactory.create_publisher true (Some [Byte.x6b]) "orders" None None ""
  = Raise (SetupError "You can't setup `key` with batch publisher").
Proof.
  refine (proj1 (C8_batch_key_rejected (Some [Byte.x6b]) "orders" None None "")
            [Byte.x6b] eq_refl _).
  discriminate.
Defined.

Section confluent_publish.
Context {Body : Type}.
Import ConfluentPublisher.

Lemma dict_or_lookup (d1 d2 : gmap string string) (k : string) :
  dict_or d1 d2 !! k =
  match d2 !! k with
  | Some v => Some v
  | None => d1 !! k
  end.
Proof.
  unfold dict_or. rewrite lookup_union.
  by destruct (d2 !! k), (d1 !! k).
Qed.

Lemma str_or_spec (x : option string) (y : string) :
  (∀ c, x = Some c → c ≠ "" → str_or x y = c)
  ∧ (x = None ∨ x = Some "" → str_or x y = y).
Proof.
  split.
  - intros c -> Hc. unfold str_or. by destruct (decide (c = "")).
  - intros [->| ->]; reflexivity.
Qed.
End confluent_publish.

(** C7, with the correlation id as the code has it.  For
    [DefaultPublisher.publish] and
    [BatchPublisher.publish] alike, a key of the command's headers maps to
    the caller's value when the caller supplied that key and to the
    publisher's default otherwise; the command's correlation id is the
    caller's when the caller supplied a non-empty one, and the freshly
    generated one when the caller supplied none or the empty string. *)
Theorem C7_publish_headers_and_correlation_id {Body : Type} (gen_cor_id : string)
    (self : ConfluentPublisher.LogicPublisher) (message : Body)
    (messages : list Body) (topic : string) (key : option (list Byte.byte))
    (partition timestamp_ms : option Z) (headers : option (gmap string string))
    (correlation_id : option string) (reply_to : string) (no_confirm : bool) :
  let cmd := ConfluentPublisher.publish gen_cor_id self message topic key partition
               timestamp_ms headers correlation_id reply_to no_confirm in
  let cmdb := ConfluentPublisher.publish_batch gen_cor_id self messages topic partition
                timestamp_ms headers correlation_id reply_to no_confirm in
  (∀ k, ConfluentPublisher.cmd_headers cmd !! k =
        match default ∅ headers !! k with
        | Some v => Some v
        | None => ConfluentPublisher.headers self !! k
        end)
  ∧ ConfluentPublisher.cmd_headers cmdb = ConfluentPublisher.cmd_headers cmd
  ∧ (∀ c, correlation_id = Some c → c ≠ "" →
          ConfluentPublisher.correlation_id cmd = c)
  ∧ (correlation_id = None ∨ correlation_id = Some "" →
          ConfluentPublisher.correlation_id cmd = gen_cor_id)
  ∧ ConfluentPublisher.correlation_id cmdb = ConfluentPublisher.correlation_id cmd.
Proof.
  intros cmd cmdb. split; [|split; [|split; [|split]]].
  - intros k. apply dict_or_lookup.
  - reflexivity.
  - apply str_or_spec.
  - apply str_or_spec.
  - reflexivity.
Qed.

Lemma C7_publish_headers_and_correlation_id_witness :
  ConfluentPublisher.correlation_id
    (ConfluentPublisher.publish "uuid-1" Examples.publisher "hello" "" None None None
       (Some (<["x-env" := "dev"]> ∅)) (Some "cid-7") "" false) = "cid-7"
  ∧ ConfluentPublisher.correlation_id
      (ConfluentPublisher.publish "uuid-1" Examples.publisher "hello" "" None None None
         (Some (<["x-env" := "dev"]> ∅)) None "" false) = "uuid-1".
Proof.
  split.
  - refine (proj1 (proj2 (proj2
      (C7_publish_headers_and_correlation_id "uuid-1" Examples.publisher "hello" []
         "" None None None (Some (<["x-env" := "dev"]> ∅)) (Some "cid-7") "" false)))
      "cid-7" eq_refl _).
    discriminate.
  - exact (proj1 (proj2 (proj2 (proj2
      (C7_publish_headers_and_correlation_id "uuid-1" Examples.publisher "hello" []
         "" None None None (Some (<["x-env" := "dev"]> ∅)) None "" false))))
      (or_introl eq_refl)).
Defined.

(** The caller's header wins on the shared key and the default survives on
    the other. *)
Example publish_headers_merge :
  let cmd := ConfluentPublisher.publish "uuid-1" Examples.publisher "hello" "" None None
               None (Some (<["x-env" := "dev"]> ∅)) None "" false in
  ConfluentPublisher.cmd_headers cmd !! "x-env" = Some "dev"
  ∧ ConfluentPublisher.cmd_headers cmd !! "x-team" = Some "core".
Proof. split; vm_compute; reflexivity. Qed.

(** C7 does not hold of a caller who passes the empty string as
    correlation id: [correlation_id or gen_cor_id()] takes it for absent,
    and the command carries the generated id. *)
Lemma C7_counterexample :
  ConfluentPublisher.correlation_id
    (ConfluentPublisher.publish "uuid-1" Examples.publisher "hello" "" None None None
       None (Some "") "" false) = "uuid-1"
  ∧ ¬ (∀ gen_cor_id cid : string,
         ConfluentPublisher.correlation_id
           (ConfluentPublisher.publish gen_cor_id Examples.publisher "hello" ""
              None None None None (Some cid) "" false) = cid).
Proof.
  split; [reflexivity|].
  intros H. specialize (H "uuid-1" ""). discriminate H.
Qed.

(** ** Renaming destinations *)

Lemma append_empty_l (s : string) : "" +:+ s = s.
Proof. reflexivity. Qed.

Lemma append_b_a (s : string) : "b" +:+ ("a" +:+ s) = "ba" +:+ s.
Proof. reflexivity. Qed.

Lemma fmap_id_ext {A} (f : A → A) (l : list A) :
  (∀ x, f x = x) → f <$> l = l.
Proof.
  intros Hf. induction l as [|x l IH]; csimpl; [done|]. by rewrite Hf, IH.
Qed.

(** C6.  [add_prefix] with the empty string leaves the subscriber as it
    was, and [add_prefix "a"] followed by [add_prefix "b"] puts "ba" before
    every topic and every partition's topic (before the list name for a
    Redis list subscriber): for the aiokafka, the Confluent and the Redis
    list subscribers. *)
Theorem C6_add_prefix {Consumer Call Client : Type}
    (k : Kafka.LogicSubscriber)
    (c : Confluent.LogicSubscriber (Consumer := Consumer) (Call := Call))
    (r : RedisList.Subscriber (Client := Client) (Call := Call)) :
  (Kafka.add_prefix "" k = k
   ∧ Kafka.topics (Kafka.add_prefix "b" (Kafka.add_prefix "a" k))
     = (λ t, "ba" +:+ t) <$> Kafka.topics k
   ∧ Kafka.topic <$> Kafka.partitions (Kafka.add_prefix "b" (Kafka.add_prefix "a" k))
     = (λ p, "ba" +:+ Kafka.topic p) <$> Kafka.partitions k)
  ∧ (Confluent.add_prefix "" c = c
     ∧ Confluent.topics (Confluent.add_prefix "b" (Confluent.add_prefix "a" c))
       = (λ t, "ba" +:+ t) <$> Confluent.topics c
     ∧ Confluent.topic <$>
         Confluent.partitions (Confluent.add_prefix "b" (Confluent.add_prefix "a" c))
       = (λ p, "ba" +:+ Confluent.topic p) <$> Confluent.partitions c)
  ∧ (RedisList.add_prefix "" r = r
     ∧ RedisList.name (RedisList.list_sub
                         (RedisList.add_prefix "b" (RedisList.add_prefix "a" r)))
       = "ba" +:+ RedisList.name (RedisList.list_sub r)).
Proof.
  split; [|split].
  - destruct k as [tps parts pat]. unfold Kafka.add_prefix. simpl.
    split; [|split].
    + f_equal.
      * apply fmap_id_ext, append_empty_l.
      * apply fmap_id_ext. by intros [t p].
    + rewrite <- list_fmap_compose. apply list_fmap_ext. by intros _ t _.
    + rewrite <- !list_fmap_compose. apply list_fmap_ext. by intros _ p _.
  - destruct c as [tps parts gid b cons cs ts]. unfold Confluent.add_prefix. simpl.
    split; [|split].
    + f_equal.
      * apply fmap_id_ext, append_empty_l.
      * apply fmap_id_ext. by intros [t p o m l].
    + rewrite <- list_fmap_compose. apply list_fmap_ext. by intros _ t _.
    + rewrite <- !list_fmap_compose. apply list_fmap_ext. by intros _ p _.
  - destruct r as [[n b mr] cfg cl cs mw]. by unfold RedisList.add_prefix.
Qed.

(** ** Pull-style access *)

(** The polling of the Redis [get_one] stops at the first answer that is
    not [None]; when every answer is [None] it has nothing. *)
Lemma poll_until_first (n : nat)
    (raw : list Byte.byte) (rest : list (option (list Byte.byte))) :
  RedisList.poll_until (replicate n None ++ Some raw :: rest) = Some raw
  ∧ RedisList.poll_until (replicate n None) = None.
Proof. induction n as [|n [IH1 IH2]]; simpl; [done|]. by rewrite IH1, IH2. Qed.

(** C5.  On the Confluent, Redis list and NATS core subscribers:
    - nothing before the call objects to registered handlers: the
      constructors keep them, the Confluent [start] builds the consumer and
      launches the consumption task, the Redis [start] goes through
      whatever handlers there are;
    - with handlers registered, [get_one] raises when it is called: an
      [AssertionError], which on a started (NATS: on any) subscriber is the
      one that names the registered handlers; the iterators of the Redis and
      NATS subscribers raise likewise;
    - without handlers, on a started subscriber, [get_one] fetches from the
      client and returns what [process_msg] makes of the raw message, or
      nothing when the client had nothing: Confluent hands the answer of
      [getone] to [process_msg]; Redis returns nothing when every [lpop]
      before the deadline answered [None] or the first payload popped is
      empty, and else [process_msg] of the first payload popped; NATS
      returns nothing on the timeout of [next_msg] and else [process_msg] of
      the message, keeping the fetch subscription. *)
Theorem C5_get_one_excludes_handlers
    {Consumer Raw Envelope Call Timeout Client Subscription : Type}
    (getone : Consumer → Timeout → option Raw * Consumer)
    (process_msg : option Raw → option Envelope)
    (redis_process_msg : RedisList.DefaultListMessage → option Envelope)
    (subscribe : string → Subscription)
    (next_msg : Subscription → Timeout → option Raw)
    (nats_process_msg : Raw → Envelope)
    (timeout : Timeout)
    (c : Confluent.LogicSubscriber (Consumer := Consumer) (Call := Call))
    (r : RedisList.Subscriber (Client := Client) (Call := Call))
    (n : NatsCore.CoreSubscriber (Subscription := Subscription) (Call := Call))
    (calls : list Call) (topics : list string)
    (partitions : list Confluent.TopicPartition) (group_id : option string)
    (list_ : RedisList.ListSub) (redis_configs : RedisList.RedisSubscriberBaseConfigs)
    (max_workers : Z) (queue : string) (nats_configs : NatsCore.NatsSubscriberBaseConfigs) :
  (* Confluent *)
  (Confluent.calls (Confluent.__init__ (Consumer := Consumer) topics partitions group_id calls)
   = calls
   ∧ (∀ b, Confluent.calls (Confluent._setup b c) = Confluent.calls c)
   ∧ (∀ b, Confluent.builder c = Some b →
      ∃ c', Confluent.start c = Ok c' ∧ Confluent.calls c' = Confluent.calls c
            ∧ Confluent.consumer c' = Some (b (Confluent.topics c) (Confluent.partitions c))
            ∧ (Confluent.calls c ≠ [] → Confluent.tasks c' = S (Confluent.tasks c)))
   ∧ (Confluent.calls c ≠ [] →
      (∃ msg, Confluent.get_one getone process_msg timeout c = Raise (AssertionError msg))
      ∧ (is_Some (Confluent.consumer c) →
         Confluent.get_one getone process_msg timeout c =
         Raise (AssertionError
           "You can't use `get_one` method if subscriber has registered handlers.")))
   ∧ (∀ cons, Confluent.calls c = [] → Confluent.consumer c = Some cons →
      ∃ c', Confluent.get_one getone process_msg timeout c =
            Ok (process_msg (getone cons timeout).1, c')
            ∧ Confluent.consumer c' = Some (getone cons timeout).2))
  (* Redis list *)
  ∧ ((RedisList.calls
        (RedisList.ListSubscriber__init__ (Client := Client) list_ redis_configs calls).1
      = calls
      ∧ RedisList.calls
          (RedisList.BatchListSubscriber__init__ (Client := Client)
             redis_configs list_ calls).1
        = calls
      ∧ RedisList.calls
          (RedisList.ConcurrentListSubscriber__init__ (Client := Client)
             redis_configs list_ max_workers calls).1
        = calls)
     ∧ (is_Some (RedisList._client r) →
        RedisList.start 0 r = Ok true ∧ ∀ k, RedisList.start (S k) r = Ok false)
     ∧ (∀ polls rounds, RedisList.calls r ≠ [] →
        (∃ msg, RedisList.get_one redis_process_msg polls r = Raise (AssertionError msg))
        ∧ (∃ msg, RedisList.__aiter__ redis_process_msg rounds r
                  = Raise (AssertionError msg))
        ∧ (is_Some (RedisList._client r) →
           RedisList.get_one redis_process_msg polls r =
           Raise (AssertionError
             "You can't use `get_one` method if subscriber has registered handlers.")
           ∧ RedisList.__aiter__ redis_process_msg rounds r =
             Raise (AssertionError
               "You can't use iterator if subscriber has registered handlers.")))
     ∧ (RedisList.calls r = [] → is_Some (RedisList._client r) →
        (∀ k, RedisList.get_one redis_process_msg (replicate k None) r = Ok None)
        ∧ (∀ k b raw rest,
             RedisList.get_one redis_process_msg
               (replicate k None ++ Some (b :: raw) :: rest) r
             = Ok (redis_process_msg
                     {| RedisList.type := "list"; RedisList.data := b :: raw;
                        RedisList.channel := RedisList.name (RedisList.list_sub r) |}))
        ∧ (∀ k rest,
             RedisList.get_one redis_process_msg (replicate k None ++ Some [] :: rest) r
             = Ok None)))
  (* NATS core *)
  ∧ ((NatsCore.calls (NatsCore.__init__ (Subscription := Subscription)
                        queue nats_configs calls) = calls
      ∧ NatsCore._fetch_sub (NatsCore.__init__ (Subscription := Subscription)
                               queue nats_configs calls) = None)
     ∧ (∀ messages, NatsCore.calls n ≠ [] →
        NatsCore.get_one subscribe next_msg nats_process_msg timeout n =
        Raise (AssertionError
          "You can't use `get_one` method if subscriber has registered handlers.")
        ∧ NatsCore.__aiter__ nats_process_msg messages n =
          Raise (AssertionError
            "You can't use iterator if subscriber has registered handlers."))
     ∧ (NatsCore.calls n = [] →
        ∃ n', NatsCore.get_one subscribe next_msg nats_process_msg timeout n =
              Ok (nats_process_msg <$>
                    next_msg (default (subscribe (NatsCore.queue n)) (NatsCore._fetch_sub n))
                      timeout, n')
              ∧ NatsCore._fetch_sub n'
                = Some (default (subscribe (NatsCore.queue n)) (NatsCore._fetch_sub n))
              ∧ NatsCore.calls n' = [])).
Proof.
  split; [|split].
  - destruct c as [tps parts gid b cons cs ts]. simpl.
    split; [done|]. split; [done|]. split; [|split].
    + intros b' ->. unfold Confluent.start. simpl. eexists. split; [reflexivity|].
      simpl. repeat split. intros Hcs. by destruct cs.
    + intros Hcs. unfold Confluent.get_one. simpl. destruct cs as [|h cs]; [done|].
      split.
      * destruct cons; eexists; reflexivity.
      * by intros [cons' ->].
    + intros cons' -> ->. unfold Confluent.get_one. simpl.
      destruct (getone cons' timeout) as [raw c'']. simpl. eexists. split; reflexivity.
  - destruct r as [ls cfg cl cs mw]. simpl.
    split; [done|]. split; [|split].
    + intros [cl' ->]. done.
    + intros polls rounds Hcs. unfold RedisList.get_one, RedisList.__aiter__. simpl.
      destruct cs as [|h cs]; [done|]. split; [|split].
      * destruct cl; eexists; reflexivity.
      * destruct cl; eexists; reflexivity.
      * by intros [cl' ->].
    + intros -> [cl' ->]. unfold RedisList.get_one. simpl. split; [|split].
      * intros k. by rewrite (proj2 (poll_until_first k [] [])).
      * intros k b raw rest. by rewrite (proj1 (poll_until_first k (b :: raw) rest)).
      * intros k rest. by rewrite (proj1 (poll_until_first k [] rest)).
  - destruct n as [q prs fs cs]. simpl. split; [done|]. split.
    + intros messages Hcs. unfold NatsCore.get_one, NatsCore.__aiter__. simpl.
      by destruct cs.
    + intros ->. unfold NatsCore.get_one. simpl.
      destruct fs as [sub|]; simpl.
      * destruct (next_msg sub timeout); eexists; (split; [reflexivity|]); done.
      * destruct (next_msg (subscribe q) timeout); eexists; (split; [reflexivity|]); done.
Qed.

(** The three subscribers exercised: with a handler registered [get_one]
    raises; without, the Confluent one returns the decoded head of the
    queue, the Redis one the first payload popped after two empty polls, the
    NATS one the decoded next message. *)
Lemma C5_get_one_excludes_handlers_witness :
  ((Confluent.calls (Examples.started ["on_order"]) ≠ []
    ∧ Confluent.get_one Examples.getone Examples.process_msg 5
        (Examples.started ["on_order"]) =
      Raise (AssertionError
        "You can't use `get_one` method if subscriber has registered handlers."))
   ∧ ∃ c', Confluent.get_one Examples.getone Examples.process_msg 5
             (Examples.started []) = Ok (Some 5%nat, c')
           ∧ Confluent.consumer c' = Some ["raw-2"])
  ∧ (RedisList.get_one Examples.redis_process_msg [None; Some [Byte.x41]]
       (Examples.redis_subscriber ["on_job"]) =
     Raise (AssertionError
       "You can't use `get_one` method if subscriber has registered handlers.")
     ∧ RedisList.start 0 (Examples.redis_subscriber ["on_job"]) = Ok true
     ∧ RedisList.get_one Examples.redis_process_msg
         (replicate 2 None ++ Some [Byte.x41; Byte.x42] :: [Some [Byte.x43]])
         (Examples.redis_subscriber []) = Ok (Some 2%nat)
     ∧ RedisList.get_one Examples.redis_process_msg (replicate 3 None)
         (Examples.redis_subscriber []) = Ok None)
  ∧ (NatsCore.get_one Examples.subscribe Examples.next_msg
       (λ raw : string, String.length raw) 5 (Examples.nats_subscriber ["on_msg"]) =
     Raise (AssertionError
       "You can't use `get_one` method if subscriber has registered handlers.")
     ∧ ∃ n', NatsCore.get_one Examples.subscribe Examples.next_msg
               (λ raw : string, String.length raw) 5 (Examples.nats_subscriber []) =
             Ok (Some 3%nat, n')
             ∧ NatsCore._fetch_sub n' = Some ["n-1"]
             ∧ NatsCore.calls n' = []).
Proof.
  pose proof (C5_get_one_excludes_handlers Examples.getone Examples.process_msg
    Examples.redis_process_msg Examples.subscribe Examples.next_msg
    (λ raw : string, String.length raw) 5
    (Examples.started ["on_order"]) (Examples.redis_subscriber ["on_job"])
    (Examples.nats_subscriber ["on_msg"])
    ["on_order"] ["orders"] [] (Some "g")
    (RedisList.list_sub (Examples.redis_subscriber []))
    (RedisList.configs (Examples.redis_subscriber [])) 4 "workers"
    {| NatsCore.subject := "orders.*"; NatsCore.ack_policy := REJECT_ON_ERROR |})
    as ((_ & _ & _ & Hc_raise & _) & (_ & Hr_start & Hr_raise & _) & (_ & Hn_raise & _)).
  pose proof (C5_get_one_excludes_handlers Examples.getone Examples.process_msg
    Examples.redis_process_msg Examples.subscribe Examples.next_msg
    (λ raw : string, String.length raw) 5
    (Examples.started []) (Examples.redis_subscriber [])
    (Examples.nats_subscriber [])
    [] ["orders"] [] (Some "g")
    (RedisList.list_sub (Examples.redis_subscriber []))
    (RedisList.configs (Examples.redis_subscriber [])) 4 "workers"
    {| NatsCore.subject := "orders.*"; NatsCore.ack_policy := REJECT_ON_ERROR |})
    as ((_ & _ & _ & _ & Hc_ok) & (_ & _ & _ & Hr_ok) & (_ & _ & Hn_ok)).
  assert (Hcalls : Confluent.calls (Examples.started ["on_order"]) ≠ []) by discriminate.
  assert (Hrcalls : RedisList.calls (Examples.redis_subscriber ["on_job"]) ≠ [])
    by discriminate.
  assert (Hncalls : NatsCore.calls (Examples.nats_subscriber ["on_msg"]) ≠ [])
    by discriminate.
  assert (Hclient : ∀ cs, is_Some (RedisList._client (Examples.redis_subscriber cs)))
    by (intros cs; eexists; reflexivity).
  split; [|split].
  - split.
    + split; [exact Hcalls|].
      refine (proj2 (Hc_raise Hcalls) _). eexists. reflexivity.
    + exact (Hc_ok ["raw-1"; "raw-2"] eq_refl eq_refl).
  - split; [|split; [|split]].
    + exact (proj1 (proj2 (proj2 (Hr_raise [None; Some [Byte.x41]] [] Hrcalls))
                     (Hclient ["on_job"]))).
    + exact (proj1 (Hr_start (Hclient ["on_job"]))).
    + exact (proj1 (proj2 (Hr_ok eq_refl (Hclient [])))
               2%nat Byte.x41 [Byte.x42] [Some [Byte.x43]]).
    + exact (proj1 (Hr_ok eq_refl (Hclient [])) 3%nat).
  - split.
    + exact (proj1 (Hn_raise [] Hncalls)).
    + exact (Hn_ok eq_refl).
Defined.

(** ** Acknowledgment policy *)

(** C10.  Whatever acknowledgment policy the configuration object
    carries, a Redis list subscriber is built with [DO_NOTHING], and the
    caller's configuration object is left with [DO_NOTHING] as well: for
    [ListSubscriber], [BatchListSubscriber] and [ConcurrentListSubscriber]. *)
Theorem C10_redis_list_policy_overwritten {Client Call : Type}
    (base_configs : RedisList.RedisSubscriberBaseConfigs) (list_ : RedisList.ListSub)
    (max_workers : Z) (calls : list Call) :
  let single := RedisList.ListSubscriber__init__ (Client := Client) list_ base_configs calls in
  let batch := RedisList.BatchListSubscriber__init__ (Client := Client) base_configs list_ calls in
  let concurrent :=
    RedisList.ConcurrentListSubscriber__init__ (Client := Client)
      base_configs list_ max_workers calls in
  (RedisList.ack_policy (RedisList.configs single.1) = Some DO_NOTHING
   ∧ RedisList.ack_policy single.2 = Some DO_NOTHING)
  ∧ (RedisList.ack_policy (RedisList.configs batch.1) = Some DO_NOTHING
     ∧ RedisList.ack_policy batch.2 = Some DO_NOTHING)
  ∧ (RedisList.ack_policy (RedisList.configs concurrent.1) = Some DO_NOTHING
     ∧ RedisList.ack_policy concurrent.2 = Some DO_NOTHING).
Proof. repeat split. Qed.

(** A configured [REJECT_ON_ERROR] does not survive construction. *)
Example redis_list_policy_ignored :
  RedisList.ack_policy
    (RedisList.configs
       (RedisList.ListSubscriber__init__ (Client := unit) (Call := string)
          {| RedisList.name := "jobs"; RedisList.batch := false;
             RedisList.max_records := 10 |}
          (RedisList.configs (Examples.redis_subscriber [])) []).1)
  = Some DO_NOTHING.
Proof. reflexivity. Qed.

(** C4, with the parser configuration as the code has it.  Under
    [DO_NOTHING] the engine invokes neither ack
    nor nack, whether the handler succeeds or fails.  The parser
    configuration follows the policy as follows: the NATS core subscriber
    sets [is_ack_disabled] exactly when the policy is not [DO_NOTHING], and
    the Confluent subscribers set [is_manual] exactly when the policy is not
    [ACK_FIRST]. *)
Theorem C4_do_nothing_and_parser_configuration {Subscription Call : Type}
    (o : AckEngine.handler_outcome) (p : AckPolicy) (queue subject : string)
    (calls : list Call) :
  AckEngine.process DO_NOTHING o = []
  ∧ (NatsCore.is_ack_disabled
       (NatsCore.parser
          (NatsCore.__init__ (Subscription := Subscription) queue
             {| NatsCore.subject := subject; NatsCore.ack_policy := p |} calls)) = true
     ↔ p ≠ DO_NOTHING)
  ∧ (Confluent.is_manual (Confluent.DefaultSubscriber_parser p) = true
     ↔ p ≠ ACK_FIRST).
Proof.
  split; [by destruct o|]. split.
  - simpl. destruct p; simpl; split; try done; intros H; by destruct H.
  - simpl. destruct p; simpl; split; try done; intros H; by destruct H.
Qed.

(** C4 does not hold of the NATS core subscriber: under
    [REJECT_ON_ERROR], a policy other than [DO_NOTHING], its parser is
    configured with acknowledgment disabled. *)
Lemma C4_counterexample :
  NatsCore.is_ack_disabled
    (NatsCore.parser (Examples.nats_subscriber [])) = true
  ∧ ¬ (∀ p : AckPolicy, p ≠ DO_NOTHING →
         NatsCore.is_ack_disabled
           (NatsCore.parser
              (NatsCore.__init__ (Subscription := list string) (Call := string)
                 "workers"
                 {| NatsCore.subject := "orders.*"; NatsCore.ack_policy := p |} []))
         = false).
Proof.
  split; [reflexivity|].
  intros H. specialize (H REJECT_ON_ERROR ltac:(discriminate)). discriminate H.
Qed.

(** * Further properties *)

(** ** Runs of the consumption loops *)

Section kafka_runs.
Context {M : Type} (truthy : M → bool).
Import Kafka KafkaRun.

Lemma kafka_delivered_from (env : list (tick M)) (st : loop_state M) :
  delivered (trace (final (_consume truthy env st))) =
  delivered (trace st) ++ filter (λ m, truthy m) (fetched_messages (processed env)).
Proof.
  revert st. induction env as [|t env IH]; intros st.
  - simpl. by rewrite app_nil_r.
  - destruct t as [|[msg|[| |name]]]; simpl; try by rewrite app_nil_r.
    + rewrite IH. simpl. unfold fetched_messages. simpl.
      rewrite filter_cons. destruct (truthy msg); simpl.
      * unfold delivered at 1. rewrite omap_app. simpl. by rewrite <- app_assoc.
      * done.
    + rewrite IH. simpl. unfold delivered at 1. rewrite omap_app. simpl.
      by rewrite app_nil_r.
Qed.

Lemma kafka_sleeps_from (env : list (tick M)) (st : loop_state M) :
  sleeps (trace (final (_consume truthy env st))) =
  sleeps (trace st) ++ replicate (transient_failures (processed env)) 5.
Proof.
  revert st. induction env as [|t env IH]; intros st.
  - simpl. by rewrite app_nil_r.
  - destruct t as [|[msg|[| |name]]]; simpl; try by rewrite app_nil_r.
    + rewrite IH. simpl. unfold transient_failures. simpl.
      destruct (truthy msg); simpl; [|done].
      unfold sleeps at 1. rewrite omap_app. simpl. by rewrite app_nil_r.
    + rewrite IH. simpl. unfold sleeps at 1. rewrite omap_app. simpl.
      by rewrite <- app_assoc.
Qed.




Lemma kafka_connected_last (env : list (tick M)) (st st' : loop_state M) :
  _consume truthy env st = Pending st' →
  connected st' =
  match last env with
  | None => connected st
  | Some (Fetched (Raises KafkaError)) => false
  | Some _ => true
  end.
Proof.
  revert st. induction env as [|t env IH]; intros st; simpl.
  - by intros [= <-].
  - destruct t as [|[msg|[| |name]]]; simpl; try done.
    + intros H. rewrite (IH _ H). destruct env as [|t' env]; simpl.
      * by destruct (connected st).
      * destruct (last (t' :: env)) as [x|] eqn:E; [done|by apply last_None in E].
    + intros H. rewrite (IH _ H). destruct env as [|t' env]; simpl.
      * by destruct (connected st).
      * destruct (last (t' :: env)) as [x|] eqn:E; [done|by apply last_None in E].
Qed.
End kafka_runs.

Section confluent_runs.
Context {M : Type}.
Import Confluent ConfluentRun.

Lemma confluent_delivered_from (env : list (tick M)) (st : loop_state M) :
  delivered (trace (final (_consume env st))) =
  delivered (trace st) ++ fetched_messages (processed env).
Proof.
  revert st. induction env as [|t env IH]; intros st.
  - simpl. by rewrite app_nil_r.
  - destruct t as [|[[msg|]|[|name]]]; simpl; try by rewrite app_nil_r.
    + rewrite IH. simpl. unfold delivered at 1. rewrite omap_app. simpl.
      by rewrite <- app_assoc.
    + by rewrite IH.
    + rewrite IH. simpl. unfold delivered at 1. rewrite omap_app. simpl.
      by rewrite app_nil_r.
Qed.

Lemma confluent_sleeps_from (env : list (tick M)) (st : loop_state M) :
  sleeps (trace (final (_consume env st))) =
  sleeps (trace st) ++ replicate (transient_failures (processed env)) 5.
Proof.
  revert st. induction env as [|t env IH]; intros st.
  - simpl. by rewrite app_nil_r.
  - destruct t as [|[[msg|]|[|name]]]; simpl; try by rewrite app_nil_r.
    + rewrite IH. simpl. unfold sleeps at 1. rewrite omap_app. simpl.
      by rewrite app_nil_r.
    + by rewrite IH.
    + rewrite IH. simpl. unfold sleeps at 1. rewrite omap_app. simpl.
      by rewrite <- app_assoc.
Qed.




Lemma confluent_connected_last (env : list (tick M)) (st st' : loop_state M) :
  _consume env st = Pending st' →
  connected st' =
  match last env with
  | None => connected st
  | Some (Fetched (Raises KafkaException)) => false
  | Some _ => true
  end.
Proof.
  revert st. induction env as [|t env IH]; intros st; simpl.
  - by intros [= <-].
  - destruct t as [|[msg|[|name]]]; simpl; try done.
    + intros H. rewrite (IH _ H). destruct env as [|t' env]; simpl.
      * by destruct (connected st).
      * destruct (last (t' :: env)) as [x|] eqn:E; [done|by apply last_None in E].
    + intros H. rewrite (IH _ H). destruct env as [|t' env]; simpl.
      * by destruct (connected st).
      * destruct (last (t' :: env)) as [x|] eqn:E; [done|by apply last_None in E].
Qed.
End confluent_runs.

(** X1.  Both loops hand the fetched messages to [consume_one] in fetch
    order, each once and none made up: the messages delivered by the time
    the loop ends (or up to now, if it has not) are the messages returned by
    the fetches made before the trip that ended it, less the falsy ones for
    aiokafka and less the empty fetches for Confluent. *)
Theorem consume_delivers_in_fetch_order {M : Type} (truthy : M → bool)
    (kenv : list (Kafka.tick M)) (cenv : list (Confluent.tick M)) :
  KafkaRun.delivered
    (Kafka.trace (Kafka.final (Kafka._consume truthy kenv Kafka.init)))
  = filter (λ m, truthy m) (KafkaRun.fetched_messages (KafkaRun.processed kenv))
  ∧ ConfluentRun.delivered
      (Confluent.trace (Confluent.final (Confluent._consume cenv Confluent.init)))
    = ConfluentRun.fetched_messages (ConfluentRun.processed cenv).
Proof.
  split.
  - by rewrite kafka_delivered_from.
  - by rewrite confluent_delivered_from.
Qed.

(** X2.  The back-off sleeps.  The sleeps that [_consume] itself issues
    are as many fives as there were [KafkaError]s (aiokafka) or
    [KafkaException]s (Confluent) among the fetches made before the trip
    that ended the loop: one per transient failure, in both loops.  They are
    not all the sleeping of a run: the fetch of the aiokafka batch
    subscriber sleeps on its own account, for its batch timeout, exactly
    when [getmany] answered the empty dictionary, and then yields the empty
    tuple. *)
Theorem consume_sleeps_once_per_failure {M R : Type} (truthy : M → bool)
    (kenv : list (Kafka.tick M)) (cenv : list (Confluent.tick M))
    (messages : list (Kafka.TopicPartition * list R)) :
  KafkaRun.sleeps
    (Kafka.trace (Kafka.final (Kafka._consume truthy kenv Kafka.init)))
  = replicate (KafkaRun.transient_failures (KafkaRun.processed kenv)) 5
  ∧ ConfluentRun.sleeps
      (Confluent.trace (Confluent.final (Confluent._consume cenv Confluent.init)))
    = replicate (ConfluentRun.transient_failures (ConfluentRun.processed cenv)) 5
  ∧ ((KafkaRun.BatchSubscriber_get_msg messages).2 = true ↔ messages = [])
  ∧ ((KafkaRun.BatchSubscriber_get_msg messages).2 = true →
     (KafkaRun.BatchSubscriber_get_msg messages).1 = []).
Proof.
  split; [|split; [|split]].
  - by rewrite kafka_sleeps_from.
  - by rewrite confluent_sleeps_from.
  - by destruct messages.
  - by destruct messages.
Qed.

Lemma consume_sleeps_once_per_failure_witness :
  (KafkaRun.BatchSubscriber_get_msg (R := string) []).1 = [].
Proof.
  exact (proj2 (proj2 (proj2
    (consume_sleeps_once_per_failure (R := string) Kafka.default_truthy
       [Kafka.Fetched (Kafka.Raises Kafka.KafkaError); Kafka.Fetched (Kafka.Returns "m1")]
       [Confluent.Fetched (Confluent.Returns (Some "m1"))] []))) eq_refl).
Defined.



(** X4.  The degraded flag follows the latest fetch only.  While a loop is
    pending, [connected] is false exactly when the last trip of the run
    ended in the transient error, however many failures went before; a run
    of no trips leaves it as it was. *)
Theorem connected_tracks_last_fetch {M : Type} (truthy : M → bool)
    (kenv : list (Kafka.tick M)) (kst kst' : Kafka.loop_state M)
    (cenv : list (Confluent.tick M)) (cst cst' : Confluent.loop_state M) :
  Kafka._consume truthy kenv kst = Kafka.Pending kst' →
  Confluent._consume cenv cst = Confluent.Pending cst' →
  Kafka.connected kst' =
    match last kenv with
    | None => Kafka.connected kst
    | Some (Kafka.Fetched (Kafka.Raises Kafka.KafkaError)) => false
    | Some _ => true
    end
  ∧ Confluent.connected cst' =
    match last cenv with
    | None => Confluent.connected cst
    | Some (Confluent.Fetched (Confluent.Raises Confluent.KafkaException)) => false
    | Some _ => true
    end.
Proof.
  intros Hk Hc. split.
  - by eapply kafka_connected_last.
  - by eapply confluent_connected_last.
Qed.

Lemma connected_tracks_last_fetch_witness :
  Kafka.connected
    (Kafka.LoopState false [Kafka.Sleep 5; Kafka.ConsumeOne "m1"; Kafka.Sleep 5]) = false
  ∧ Confluent.connected (M := string)
      (Confluent.LoopState true [Confluent.Sleep 5; Confluent.Sleep 5]) = true.
Proof.
  exact (connected_tracks_last_fetch Kafka.default_truthy
    [Kafka.Fetched (Kafka.Raises Kafka.KafkaError);
     Kafka.Fetched (Kafka.Returns "m1");
     Kafka.Fetched (Kafka.Raises Kafka.KafkaError)]
    Kafka.init
    (Kafka.LoopState false [Kafka.Sleep 5; Kafka.ConsumeOne "m1"; Kafka.Sleep 5])
    [Confluent.Fetched (Confluent.Raises Confluent.KafkaException);
     Confluent.Fetched (Confluent.Raises Confluent.KafkaException);
     Confluent.Fetched (Confluent.Returns None)]
    Confluent.init
    (Confluent.LoopState true [Confluent.Sleep 5; Confluent.Sleep 5])
    eq_refl eq_refl).
Defined.

Lemma confluent_batch_fetches_processed {R : Type} (fetches : list (list R)) :
  ConfluentRun.fetched_messages
    (ConfluentRun.processed
       ((λ records, Confluent.Fetched
                      (Confluent.Returns (ConfluentRun.BatchSubscriber_get_msg records)))
          <$> fetches))
  = filter (λ records, records ≠ []) fetches.
Proof.
  induction fetches as [|records fetches IH]; [done|].
  destruct records as [|r records].
  - rewrite filter_cons_False by (by intros []). exact IH.
  - rewrite filter_cons_True by done. rewrite <- IH. reflexivity.
Qed.

Lemma kafka_batch_fetches_processed {R : Type}
    (answers : list (list (Kafka.TopicPartition * list R))) :
  KafkaRun.fetched_messages
    (KafkaRun.processed
       ((λ messages, Kafka.Fetched
                       (Kafka.Returns (KafkaRun.BatchSubscriber_get_msg messages).1))
          <$> answers))
  = (λ messages, concat (snd <$> messages)) <$> answers.
Proof.
  induction answers as [|messages answers IH]; [done|].
  csimpl. unfold KafkaRun.fetched_messages in *. csimpl. rewrite IH.
  by destruct messages.
Qed.

(** X5.  A batch handler never receives an empty batch.  In the aiokafka
    batch subscriber [get_msg] chains the per-partition lists of the answer
    of [getmany] and the loop drops the empty tuple, so the batches
    delivered are the non-empty chains, in order; whatever the fetches
    return, no empty batch is delivered.  In the Confluent batch subscriber
    [get_msg] turns an empty answer into [None], and the batches delivered
    are exactly the non-empty answers, in order. *)
Theorem batch_never_delivered_empty {R : Type}
    (kenv : list (Kafka.tick (list R)))
    (answers : list (list (Kafka.TopicPartition * list R)))
    (fetches : list (list R)) :
  let kenv' := (λ messages, Kafka.Fetched
                  (Kafka.Returns (KafkaRun.BatchSubscriber_get_msg messages).1))
               <$> answers in
  let cenv := (λ records, Confluent.Fetched
                 (Confluent.Returns (ConfluentRun.BatchSubscriber_get_msg records)))
              <$> fetches in
  ([] ∉ KafkaRun.delivered
          (Kafka.trace (Kafka.final
             (Kafka._consume Kafka.batch_truthy kenv Kafka.init))))
  ∧ KafkaRun.delivered
      (Kafka.trace (Kafka.final (Kafka._consume Kafka.batch_truthy kenv' Kafka.init)))
    = filter (λ records, records ≠ [])
        ((λ messages, concat (snd <$> messages)) <$> answers)
  ∧ ConfluentRun.delivered
      (Confluent.trace (Confluent.final (Confluent._consume cenv Confluent.init)))
    = filter (λ records, records ≠ []) fetches
  ∧ ([] ∉ ConfluentRun.delivered
            (Confluent.trace (Confluent.final (Confluent._consume cenv Confluent.init)))).
Proof.
  intros kenv' cenv.
  assert (Hc : ConfluentRun.delivered
      (Confluent.trace (Confluent.final (Confluent._consume cenv Confluent.init)))
    = filter (λ records, records ≠ []) fetches).
  { rewrite confluent_delivered_from. simpl. apply confluent_batch_fetches_processed. }
  split; [|split; [|split; [exact Hc|]]].
  - rewrite kafka_delivered_from. simpl. intros [H _]%list_elem_of_filter. done.
  - rewrite kafka_delivered_from. simpl. unfold kenv'.
    rewrite kafka_batch_fetches_processed. apply list_filter_iff.
    intros [|r records]; simpl; split; done.
  - rewrite Hc. intros [H _]%list_elem_of_filter. done.
Qed.

(** ** Destination names *)

Lemma string_append_assoc (s1 s2 s3 : string) :
  (s1 +:+ s2) +:+ s3 = s1 +:+ (s2 +:+ s3).
Proof.
  induction s1 as [|a s1 IH]; [done|].
  change (String a ((s1 +:+ s2) +:+ s3) = String a (s1 +:+ (s2 +:+ s3))).
  by rewrite IH.
Qed.

(** X6.  Prefixes compose, for any two prefixes: renaming with [p1] and
    then with [p2] is renaming once with [p2 +:+ p1], on the aiokafka, the
    Confluent and the Redis list subscribers and on the Confluent
    publisher. *)
Theorem add_prefix_composes {Consumer Call Client : Type} (p1 p2 : string)
    (k : Kafka.LogicSubscriber)
    (c : Confluent.LogicSubscriber (Consumer := Consumer) (Call := Call))
    (r : RedisList.Subscriber (Client := Client) (Call := Call))
    (pub : ConfluentPublisher.LogicPublisher) :
  Kafka.add_prefix p2 (Kafka.add_prefix p1 k) = Kafka.add_prefix (p2 +:+ p1) k
  ∧ Confluent.add_prefix p2 (Confluent.add_prefix p1 c)
    = Confluent.add_prefix (p2 +:+ p1) c
  ∧ RedisList.add_prefix p2 (RedisList.add_prefix p1 r)
    = RedisList.add_prefix (p2 +:+ p1) r
  ∧ ConfluentPublisherMore.add_prefix p2 (ConfluentPublisherMore.add_prefix p1 pub)
    = ConfluentPublisherMore.add_prefix (p2 +:+ p1) pub.
Proof.
  split; [|split; [|split]].
  - unfold Kafka.add_prefix. simpl. f_equal.
    + rewrite <- list_fmap_compose. apply list_fmap_ext.
      intros _ t _. simpl. by rewrite string_append_assoc.
    + rewrite <- list_fmap_compose. apply list_fmap_ext.
      intros _ p _. simpl. by rewrite string_append_assoc.
  - unfold Confluent.add_prefix. simpl. f_equal.
    + rewrite <- list_fmap_compose. apply list_fmap_ext.
      intros _ t _. simpl. by rewrite string_append_assoc.
    + rewrite <- list_fmap_compose. apply list_fmap_ext.
      intros _ p _. simpl. by rewrite string_append_assoc.
  - unfold RedisList.add_prefix. simpl. by rewrite string_append_assoc.
  - unfold ConfluentPublisherMore.add_prefix. simpl. by rewrite string_append_assoc.
Qed.

(** X7.  What [topic_names] reports after a renaming.  For the Confluent
    subscriber every reported name gets the prefix, whether the names come
    from the topics or from the assigned partitions.  For the aiokafka
    subscriber the same holds when no pattern is set; with a pattern set the
    report is the pattern alone, before and after: [add_prefix] does not
    rename a pattern subscription. *)
Theorem topic_names_after_add_prefix {Consumer Call : Type} (prefix : string)
    (k : Kafka.LogicSubscriber)
    (c : Confluent.LogicSubscriber (Consumer := Consumer) (Call := Call)) :
  ConfluentSubscriber.topic_names (Confluent.add_prefix prefix c)
  = (λ n, prefix +:+ n) <$> ConfluentSubscriber.topic_names c
  ∧ (KafkaSubscriber.pattern_truthy (Kafka._pattern k) = false →
     KafkaSubscriber.topic_names (Kafka.add_prefix prefix k)
     = (λ n, prefix +:+ n) <$> KafkaSubscriber.topic_names k)
  ∧ (∀ pat, Kafka._pattern k = Some pat → pat ≠ "" →
     KafkaSubscriber.topic_names (Kafka.add_prefix prefix k) = [pat]
     ∧ KafkaSubscriber.topic_names k = [pat]).
Proof.
  split; [|split].
  - unfold ConfluentSubscriber.topic_names, Confluent.add_prefix. simpl.
    destruct (Confluent.topics c) as [|t ts]; csimpl; [|done].
    rewrite <- !list_fmap_compose. apply list_fmap_ext.
    intros _ p _. simpl. by rewrite string_append_assoc.
  - intros Hpat.
    assert (Hby : ∀ tps parts,
      match (λ t, prefix +:+ t) <$> tps with
      | _ :: _ => (λ t, prefix +:+ t) <$> tps
      | [] => (λ p, Kafka.topic p +:+ "-" +:+ pretty (Kafka.partition p))
              <$> ((λ p, {| Kafka.topic := prefix +:+ Kafka.topic p;
                            Kafka.partition := Kafka.partition p |}) <$> parts)
      end
      = (λ n, prefix +:+ n) <$>
        match tps with
        | _ :: _ => tps
        | [] => (λ p, Kafka.topic p +:+ "-" +:+ pretty (Kafka.partition p)) <$> parts
        end).
    { intros [|t ts] parts; csimpl; [|done].
      rewrite <- !list_fmap_compose. apply list_fmap_ext.
      intros _ p _. simpl. by rewrite string_append_assoc. }
    unfold KafkaSubscriber.topic_names, Kafka.add_prefix. simpl.
    destruct (Kafka._pattern k) as [pat|]; simpl in *; [|apply Hby].
    destruct (decide (pat = "")) as [->|Hne]; [apply Hby|].
    by rewrite bool_decide_eq_false_2 in Hpat.
  - intros pat Hpat Hne. unfold KafkaSubscriber.topic_names, Kafka.add_prefix. simpl.
    rewrite Hpat. by destruct (decide (pat = "")).
Qed.

Lemma topic_names_after_add_prefix_witness :
  KafkaSubscriber.topic_names
    (Kafka.add_prefix "dev."
       {| Kafka.topics := []; Kafka._pattern := None;
          Kafka.partitions := [{| Kafka.topic := "orders"; Kafka.partition := 3 |}] |})
  = ["dev.orders-3"]
  ∧ KafkaSubscriber.topic_names
      (Kafka.add_prefix "dev."
         {| Kafka.topics := ["a"]; Kafka._pattern := Some "logs.*";
            Kafka.partitions := [] |})
    = ["logs.*"].
Proof.
  split.
  - exact (proj1 (proj2
      (topic_names_after_add_prefix (Consumer := unit) (Call := unit) "dev."
         {| Kafka.topics := []; Kafka._pattern := None;
            Kafka.partitions := [{| Kafka.topic := "orders"; Kafka.partition := 3 |}] |}
         (Confluent.__init__ [] [] None []))) eq_refl).
  - refine (proj1 (proj2 (proj2
      (topic_names_after_add_prefix (Consumer := unit) (Call := unit) "dev."
         {| Kafka.topics := ["a"]; Kafka._pattern := Some "logs.*";
            Kafka.partitions := [] |}
         (Confluent.__init__ [] [] None []))) "logs.*" eq_refl _)).
    discriminate.
Defined.

(** ** Pull-style access, continued *)

(** X8.  The aiokafka [get_one] on a started subscriber without handlers.
    It returns a value in two cases only: nothing when [getmany] answered
    the empty dictionary, and [process_msg] of the record when the answer
    holds one partition with one record.  Every other answer (a partition
    with no record, two records, two partitions) makes the unpacking raise
    [ValueError]. *)
Theorem kafka_get_one_shapes {Consumer Record_ Envelope Call : Type}
    (process_msg : Record_ → option Envelope) (consumer : Consumer)
    (raw_messages : list (Kafka.TopicPartition * list Record_)) :
  (∀ v, KafkaSubscriber.get_one (Call := Call) process_msg (Some consumer) [] raw_messages
        = KafkaSubscriber.Value v
        ↔ (raw_messages = [] ∧ v = None)
          ∨ ∃ tp r, raw_messages = [(tp, [r])] ∧ v = process_msg r)
  ∧ (KafkaSubscriber.get_one (Call := Call) process_msg (Some consumer) [] raw_messages
     = KafkaSubscriber.ValueError
     ↔ raw_messages ≠ [] ∧ ∀ tp r, raw_messages ≠ [(tp, [r])]).
Proof.
  split.
  - intros v. simpl. split.
    + destruct raw_messages as [|[tp [|r [|r' rs]]] [|kv rm]]; simpl; try done.
      * intros [= <-]. by left.
      * intros [= <-]. right. by eexists _, _.
    + intros [[-> ->]|(tp & r & -> & ->)]; reflexivity.
  - simpl. split.
    + destruct raw_messages as [|[tp [|r [|r' rs]]] [|kv rm]]; simpl; try done.
    + intros [Hne Hshape].
      destruct raw_messages as [|[tp [|r [|r' rs]]] [|kv rm]]; simpl; try done.
      by destruct (Hshape tp r).
Qed.

(** X9.  What the aiokafka [start] asks of the consumer.  It subscribes by
    name when a topic or a pattern is declared, and then never assigns
    partitions, even if some are declared too; it assigns the partitions
    only when neither topic nor pattern is declared; with nothing declared
    it starts the consumer unbound.  The consumer is started last, once. *)
Theorem kafka_start_binds_once (self : Kafka.LogicSubscriber) :
  (Kafka.topics self ≠ [] ∨ KafkaSubscriber.pattern_truthy (Kafka._pattern self) = true →
   KafkaSubscriber.start_calls self
   = [KafkaSubscriber.Subscribe (Kafka.topics self) (Kafka._pattern self);
      KafkaSubscriber.Start])
  ∧ (Kafka.topics self = [] →
     KafkaSubscriber.pattern_truthy (Kafka._pattern self) = false →
     KafkaSubscriber.start_calls self
     = match Kafka.partitions self with
       | [] => [KafkaSubscriber.Start]
       | _ :: _ => [KafkaSubscriber.Assign (Kafka.partitions self); KafkaSubscriber.Start]
       end)
  ∧ (∀ parts, KafkaSubscriber.Assign parts ∈ KafkaSubscriber.start_calls self →
       parts = Kafka.partitions self ∧ Kafka.topics self = []
       ∧ KafkaSubscriber.pattern_truthy (Kafka._pattern self) = false).
Proof.
  unfold KafkaSubscriber.start_calls.
  destruct self as [tps parts pat]. simpl. split; [|split].
  - intros [Htps|Hpat].
    + by rewrite bool_decide_eq_true_2.
    + rewrite Hpat. by rewrite orb_true_r.
  - intros -> ->. simpl. by destruct parts.
  - intros parts'. destruct tps as [|t tps]; simpl.
    + destruct (KafkaSubscriber.pattern_truthy pat); simpl.
      * intros H. apply list_elem_of_In in H. simpl in H.
        by destruct H as [H|[H|[]]].
      * destruct parts as [|p parts]; simpl; intros H;
          apply list_elem_of_In in H; simpl in H.
        -- by destruct H as [H|[]].
        -- destruct H as [[= <-]|[H|[]]]; done.
    + intros H. apply list_elem_of_In in H. simpl in H.
      by destruct H as [H|[H|[]]].
Qed.

Lemma kafka_start_binds_once_witness :
  KafkaSubscriber.start_calls
    {| Kafka.topics := ["orders"]; Kafka._pattern := None;
       Kafka.partitions := [{| Kafka.topic := "audit"; Kafka.partition := 0 |}] |}
  = [KafkaSubscriber.Subscribe ["orders"] None; KafkaSubscriber.Start].
Proof.
  refine (proj1 (kafka_start_binds_once
    {| Kafka.topics := ["orders"]; Kafka._pattern := None;
       Kafka.partitions := [{| Kafka.topic := "audit"; Kafka.partition := 0 |}] |})
    (or_introl _)).
  discriminate.
Defined.

(** X10.  The NATS core [get_one] opens its fetch subscription once.  After
    a call on a subscriber without handlers the subscription is kept,
    whether a message came or the wait timed out; every later call, with
    whatever timeout, uses that subscription, does not subscribe again and
    leaves the subscriber as it is. *)
Theorem nats_get_one_subscribes_once {Subscription Raw Envelope Call Timeout : Type}
    (subscribe : string → Subscription)
    (next_msg : Subscription → Timeout → option Raw)
    (process_msg : Raw → Envelope) (timeout : Timeout)
    (n n' : NatsCore.CoreSubscriber (Subscription := Subscription) (Call := Call))
    (got : option Envelope) :
  NatsCore.get_one subscribe next_msg process_msg timeout n = Ok (got, n') →
  let sub := default (subscribe (NatsCore.queue n)) (NatsCore._fetch_sub n) in
  NatsCore._fetch_sub n' = Some sub
  ∧ ∀ (subscribe' : string → Subscription) (timeout' : Timeout),
      NatsCore.get_one subscribe' next_msg process_msg timeout' n'
      = Ok (process_msg <$> next_msg sub timeout', n').
Proof.
  unfold NatsCore.get_one. destruct n as [q prs fs cs]. simpl.
  destruct cs as [|h cs]; [|done].
  intros H.
  assert (Hn' : n' = {| NatsCore.queue := q; NatsCore.parser := prs;
                        NatsCore._fetch_sub := Some (default (subscribe q) fs);
                        NatsCore.calls := [] |}).
  { destruct fs as [sub|]; simpl in *.
    - destruct (next_msg sub timeout); by injection H as _ <-.
    - destruct (next_msg (subscribe q) timeout); by injection H as _ <-. }
  subst n'. simpl. split; [done|].
  intros subscribe' timeout'.
  by destruct (next_msg (default (subscribe q) fs) timeout').
Qed.

Lemma nats_get_one_subscribes_once_witness :
  NatsCore.get_one (λ _ : string, ["never"]) Examples.next_msg
    (λ raw : string, String.length raw) 7
    {| NatsCore.queue := "workers";
       NatsCore.parser := NatsCore.parser (Examples.nats_subscriber []);
       NatsCore._fetch_sub := Some ["n-1"];
       NatsCore.calls := [] |}
  = Ok (Some 3%nat,
        {| NatsCore.queue := "workers";
           NatsCore.parser := NatsCore.parser (Examples.nats_subscriber []);
           NatsCore._fetch_sub := Some ["n-1"];
           NatsCore.calls := @nil string |}).
Proof.
  exact (proj2 (nats_get_one_subscribes_once Examples.subscribe Examples.next_msg
    (λ raw : string, String.length raw) 5
    (Examples.nats_subscriber [])
    {| NatsCore.queue := "workers";
       NatsCore.parser := NatsCore.parser (Examples.nats_subscriber []);
       NatsCore._fetch_sub := Some ["n-1"];
       NatsCore.calls := [] |}
    (Some 3%nat) eq_refl) (λ _ : string, ["never"]) 7).
Defined.

(** X11.  The Redis list [get_one] on a started subscriber without
    handlers polls until the first answer that is not [None].  If every poll
    before the deadline answers [None] it returns nothing.  If the first
    answer is a non-empty payload it returns [process_msg] of a "list"
    message with that payload and the subscriber's current list name as
    channel, whatever further polls would have answered.  If the first
    answer is the empty payload it returns nothing, although the element was
    popped; the consuming path ([ListSubscriber._get_msgs]) hands the same
    empty payload to the handler. *)
Theorem redis_get_one_polls {Client Envelope Call : Type}
    (process_msg : RedisList.DefaultListMessage → option Envelope)
    (r : RedisList.Subscriber (Client := Client) (Call := Call))
    (n : nat) (b : Byte.byte) (raw key : list Byte.byte)
    (rest : list (option (list Byte.byte))) :
  RedisList.calls r = [] →
  is_Some (RedisList._client r) →
  RedisList.get_one process_msg (replicate n None) r = Ok None
  ∧ RedisList.get_one process_msg (replicate n None ++ Some (b :: raw) :: rest) r
    = Ok (process_msg
            {| RedisList.type := "list"; RedisList.data := b :: raw;
               RedisList.channel := RedisList.name (RedisList.list_sub r) |})
  ∧ RedisList.get_one process_msg (replicate n None ++ Some [] :: rest) r = Ok None
  ∧ RedisListConsume.ListSubscriber_get_msgs r (Some (key, []))
    = [RedisListConsume.ConsumeOne
         {| RedisList.type := "list"; RedisList.data := [];
            RedisList.channel := RedisList.name (RedisList.list_sub r) |}].
Proof.
  intros Hcalls [cl Hcl]. unfold RedisList.get_one. rewrite Hcalls, Hcl.
  rewrite (proj2 (poll_until_first n [] [])).
  rewrite !(proj1 (poll_until_first n _ rest)). done.
Qed.

Lemma redis_get_one_polls_witness :
  RedisList.get_one Examples.redis_process_msg
    (replicate 2 None ++ Some [Byte.x41; Byte.x42] :: [Some [Byte.x43]])
    (RedisList.add_prefix "dev." (Examples.redis_subscriber []))
  = Ok (Examples.redis_process_msg
          {| RedisList.type := "list"; RedisList.data := [Byte.x41; Byte.x42];
             RedisList.channel := "dev.jobs" |}).
Proof.
  exact (proj1 (proj2
    (redis_get_one_polls Examples.redis_process_msg
       (RedisList.add_prefix "dev." (Examples.redis_subscriber []))
       2 Byte.x41 [Byte.x42] [] [Some [Byte.x43]]
       eq_refl (ex_intro _ () eq_refl)))).
Defined.

(** ** Lifecycle of the Confluent subscriber *)

(** X12.  After [close] the Confluent subscriber has no consumer:
    [get_one] raises the "start subscriber at first" assertion, with or
    without handlers, and a new [start] builds a fresh consumer from the
    builder and the declared destinations. *)
Theorem confluent_close_forgets_consumer {Consumer Raw Envelope Call Timeout : Type}
    (super_close : nat → nat)
    (getone : Consumer → Timeout → option Raw * Consumer)
    (process_msg : option Raw → option Envelope) (timeout : Timeout)
    (c : Confluent.LogicSubscriber (Consumer := Consumer) (Call := Call)) :
  Confluent.get_one getone process_msg timeout (ConfluentSubscriber.close super_close c)
  = Raise (AssertionError "You should start subscriber at first.")
  ∧ (∀ b, Confluent.builder c = Some b →
       ∃ c', Confluent.start (ConfluentSubscriber.close super_close c) = Ok c'
             ∧ Confluent.consumer c'
               = Some (b (Confluent.topics c) (Confluent.partitions c))
             ∧ Confluent.calls c' = Confluent.calls c).
Proof.
  split; [done|].
  intros b Hb. unfold Confluent.start, ConfluentSubscriber.close. simpl.
  rewrite Hb. by eexists.
Qed.

Lemma confluent_close_forgets_consumer_witness :
  ∃ c', Confluent.start
          (ConfluentSubscriber.close (λ _, 0%nat) (Examples.started ["on_order"]))
        = Ok c'
      ∧ Confluent.consumer c' = Some ["raw-1"; "raw-2"]
      ∧ Confluent.calls c' = ["on_order"].
Proof.
  exact (proj2 (confluent_close_forgets_consumer (λ _, 0%nat) Examples.getone
    Examples.process_msg 5 (Examples.started ["on_order"]))
    (λ _ _, ["raw-1"; "raw-2"]) eq_refl).
Defined.

(** X13.  Renaming is only seen by a consumer built afterwards.  [start]
    after [add_prefix] builds the consumer on the prefixed topics and
    partitions; [add_prefix] after [start] renames the declared
    destinations but leaves the running consumer the one built on the old
    names. *)
Theorem confluent_add_prefix_before_start {Consumer Call : Type} (prefix : string)
    (c c' : Confluent.LogicSubscriber (Consumer := Consumer) (Call := Call))
    (b : list string → list Confluent.TopicPartition → Consumer) :
  Confluent.builder c = Some b →
  Confluent.start c = Ok c' →
  Confluent.consumer (Confluent.add_prefix prefix c')
  = Some (b (Confluent.topics c) (Confluent.partitions c))
  ∧ Confluent.topics (Confluent.add_prefix prefix c')
    = (λ t, prefix +:+ t) <$> Confluent.topics c
  ∧ ∃ c'', Confluent.start (Confluent.add_prefix prefix c) = Ok c''
           ∧ Confluent.consumer c''
             = Some (b (Confluent.topics (Confluent.add_prefix prefix c))
                       (Confluent.partitions (Confluent.add_prefix prefix c))).
Proof.
  intros Hb. unfold Confluent.start. rewrite Hb. intros [= <-]. simpl.
  rewrite Hb. split; [done|]. split; [done|]. by eexists.
Qed.

Lemma confluent_add_prefix_before_start_witness :
  Confluent.consumer
    (Confluent.add_prefix "dev."
       (Examples.started (@nil string)))
  = Some ["raw-1"; "raw-2"]
  ∧ Confluent.topics (Confluent.add_prefix "dev." (Examples.started (@nil string)))
    = ["dev.orders"].
Proof.
  pose proof (confluent_add_prefix_before_start "dev."
    (Examples.confluent_subscriber []) (Examples.started [])
    (λ _ _, ["raw-1"; "raw-2"]) eq_refl eq_refl) as (H1 & H2 & _).
  exact (conj H1 H2).
Defined.

(** ** Factories, continued *)

(** X14.  The Confluent factory never hands [ACK_FIRST], nor an unset
    policy, to a subscriber: whenever it builds one, the policy stored is
    [REJECT_ON_ERROR], [MANUAL_ACK] or [DO_NOTHING], so the parser the
    subscriber configures from it is always manual. *)
Theorem confluent_factory_policy_never_ack_first (a : ConfluentFactory.args)
    (ws : list string) (s : ConfluentFactory.Subscriber) :
  ConfluentFactory.create_subscriber a = (ws, Ok s) →
  ∃ p, ConfluentFactory.ack_policy (ConfluentFactory.base_configs_of s) = Some p
       ∧ p ≠ ACK_FIRST
       ∧ Confluent.is_manual (Confluent.DefaultSubscriber_parser p) = true.
Proof.
  destruct a as [tps parts batch mr gid cd auto pol noack mw nr].
  unfold ConfluentFactory.create_subscriber. simpl.
  destruct auto as [[|]|], pol as [[| | |]|], noack as [[|]|]; cbn;
    try discriminate;
    destruct batch; cbn; try destruct (bool_decide (mw > 1)); cbn;
    intros [= _ <-]; cbn; eexists; (split; [reflexivity|]); by split.
Qed.

Lemma confluent_factory_policy_never_ack_first_witness :
  ∃ p, ConfluentFactory.ack_policy
         (ConfluentFactory.base_configs_of
            (ConfluentFactory.SpecificationDefaultSubscriber
               {| ConfluentFactory.topics := ["orders"];
                  ConfluentFactory.partitions := [];
                  ConfluentFactory.group_id := None;
                  ConfluentFactory.connection_data :=
                    <["enable_auto_commit" := PyBool true]> ∅;
                  ConfluentFactory.ack_policy := Some DO_NOTHING;
                  ConfluentFactory.no_reply := false |})) = Some p
       ∧ p ≠ ACK_FIRST
       ∧ Confluent.is_manual (Confluent.DefaultSubscriber_parser p) = true.
Proof.
  exact (confluent_factory_policy_never_ack_first
    (Examples.confluent_args (Some ACK_FIRST) None None) [] _ eq_refl).
Defined.

(** X15.  Without deprecated toggles the Confluent factory warns of
    nothing and succeeds.  An unset policy and an explicit [ACK_FIRST] both
    become [DO_NOTHING] with [enable_auto_commit] set to true in the
    connection data, overriding whatever the caller had put under that key;
    any other explicit policy is stored as given and the connection data is
    left alone. *)
Theorem confluent_factory_auto_commit (a : ConfluentFactory.args) :
  ConfluentFactory.a_auto_commit a = None →
  ConfluentFactory.a_no_ack a = None →
  ∃ s, ConfluentFactory.create_subscriber a = ([], Ok s)
     ∧ (ConfluentFactory.a_ack_policy a = None
        ∨ ConfluentFactory.a_ack_policy a = Some ACK_FIRST →
        ConfluentFactory.ack_policy (ConfluentFactory.base_configs_of s) = Some DO_NOTHING
        ∧ ConfluentFactory.connection_data (ConfluentFactory.base_configs_of s)
          = <["enable_auto_commit" := PyBool true]> (ConfluentFactory.a_connection_data a)
        ∧ ConfluentFactory.connection_data (ConfluentFactory.base_configs_of s)
            !! "enable_auto_commit" = Some (PyBool true))
     ∧ (∀ p, ConfluentFactory.a_ack_policy a = Some p → p ≠ ACK_FIRST →
        ConfluentFactory.ack_policy (ConfluentFactory.base_configs_of s) = Some p
        ∧ ConfluentFactory.connection_data (ConfluentFactory.base_configs_of s)
          = ConfluentFactory.a_connection_data a).
Proof.
  destruct a as [tps parts batch mr gid cd auto pol noack mw nr]. simpl.
  intros -> ->. unfold ConfluentFactory.create_subscriber.
  destruct pol as [[| | |]|], batch; cbn; try destruct (bool_decide (mw > 1)); cbn;
    eexists; (split; [reflexivity|]); cbn;
    (split; [intros [H|H]; try discriminate H;
               (split; [done|]); (split; [done|]); apply lookup_insert_eq
            |intros p [= <-] Hp; done]).
Qed.

Lemma confluent_factory_auto_commit_witness :
  ∃ s, ConfluentFactory.create_subscriber (Examples.confluent_args None None None)
       = ([], Ok s)
     ∧ ConfluentFactory.ack_policy (ConfluentFactory.base_configs_of s) = Some DO_NOTHING
     ∧ ConfluentFactory.connection_data (ConfluentFactory.base_configs_of s)
         !! "enable_auto_commit" = Some (PyBool true).
Proof.
  destruct (confluent_factory_auto_commit (Examples.confluent_args None None None)
              eq_refl eq_refl) as (s & Hs & Hdef & _).
  exists s. split; [exact Hs|].
  destruct (Hdef (or_introl eq_refl)) as (Hp & _ & Hcd). exact (conj Hp Hcd).
Defined.

(** X16.  Which subscriber the Confluent factory builds.  With [batch] it
    is the batch subscriber, whatever [max_workers] says, and it keeps
    [max_records]; without [batch] it is the concurrent subscriber when
    [max_workers] exceeds 1, carrying that number, and the default one
    otherwise. *)
Theorem confluent_factory_variant (a : ConfluentFactory.args) (ws : list string)
    (s : ConfluentFactory.Subscriber) :
  ConfluentFactory.create_subscriber a = (ws, Ok s) →
  s = if ConfluentFactory.a_batch a
      then ConfluentFactory.SpecificationBatchSubscriber
             (ConfluentFactory.base_configs_of s) (ConfluentFactory.a_max_records a)
      else if bool_decide (ConfluentFactory.a_max_workers a > 1)
      then ConfluentFactory.SpecificationConcurrentDefaultSubscriber
             (ConfluentFactory.base_configs_of s) (ConfluentFactory.a_max_workers a)
      else ConfluentFactory.SpecificationDefaultSubscriber
             (ConfluentFactory.base_configs_of s).
Proof.
  destruct a as [tps parts batch mr gid cd auto pol noack mw nr].
  unfold ConfluentFactory.create_subscriber. simpl.
  destruct auto as [[|]|], pol as [[| | |]|], noack as [[|]|]; cbn;
    try discriminate;
    destruct batch; cbn; try destruct (bool_decide (mw > 1)); cbn;
    by intros [= _ <-].
Qed.

Lemma confluent_factory_variant_witness :
  ∃ bc, ConfluentFactory.create_subscriber
          {| ConfluentFactory.a_topics := ["orders"];
             ConfluentFactory.a_partitions := [];
             ConfluentFactory.a_batch := true;
             ConfluentFactory.a_max_records := Some 50;
             ConfluentFactory.a_group_id := None;
             ConfluentFactory.a_connection_data := ∅;
             ConfluentFactory.a_auto_commit := None;
             ConfluentFactory.a_ack_policy := Some REJECT_ON_ERROR;
             ConfluentFactory.a_no_ack := None;
             ConfluentFactory.a_max_workers := 8;
             ConfluentFactory.a_no_reply := false |}
        = ([], Ok (ConfluentFactory.SpecificationBatchSubscriber bc (Some 50))).
Proof.
  eexists.
  match goal with
  | |- ConfluentFactory.create_subscriber ?a = _ =>
      pose proof (confluent_factory_variant a [] _ eq_refl) as H
  end.
  exact (f_equal (λ s, ([], Ok s)) H).
Defined.

(** X17.  When the Confluent factory refuses.  It raises [SetupError]
    exactly when a deprecated toggle meets an explicit policy or the two
    toggles meet each other; in every other case it builds a subscriber.
    When [auto_commit] and [no_ack] are both given without a policy, the
    message is the one about [no_ack] and [ack_policy], and both deprecation
    warnings have been issued. *)
Theorem confluent_factory_refuses_iff (a : ConfluentFactory.args) :
  ((∃ ws msg, ConfluentFactory.create_subscriber a = (ws, Raise (SetupError msg)))
   ↔ (is_Some (ConfluentFactory.a_auto_commit a)
      ∧ is_Some (ConfluentFactory.a_ack_policy a))
     ∨ (is_Some (ConfluentFactory.a_no_ack a)
        ∧ (is_Some (ConfluentFactory.a_ack_policy a)
           ∨ is_Some (ConfluentFactory.a_auto_commit a))))
  ∧ ((∃ ws s, ConfluentFactory.create_subscriber a = (ws, Ok s))
     ∨ ∃ ws msg, ConfluentFactory.create_subscriber a = (ws, Raise (SetupError msg)))
  ∧ (is_Some (ConfluentFactory.a_auto_commit a) →
     is_Some (ConfluentFactory.a_no_ack a) →
     ConfluentFactory.a_ack_policy a = None →
     ConfluentFactory.create_subscriber a
     = (["DeprecationWarning: " +:+ ConfluentFactory.auto_commit_deprecated;
         "DeprecationWarning: " +:+ ConfluentFactory.no_ack_deprecated],
        Raise (SetupError ConfluentFactory.no_ack_conflict))).
Proof.
  destruct a as [tps parts batch mr gid cd auto pol noack mw nr].
  unfold ConfluentFactory.create_subscriber. simpl. split; [|split].
  - split.
    + intros (ws & msg & H).
      destruct auto as [ac|], pol as [p|], noack as [na|];
        try (left; split; by eexists);
        try (right; split; [by eexists|]; (left + right); by eexists);
        exfalso; revert H;
        try destruct ac; try destruct na; try destruct p; cbn;
        destruct batch; cbn; try destruct (bool_decide (mw > 1)); cbn; discriminate.
    + intros [[[ac ->] [p ->]]|[[na ->] [[p ->]|[ac ->]]]].
      * eexists _, _. reflexivity.
      * destruct auto as [ac|]; eexists _, _; reflexivity.
      * destruct pol as [p|]; eexists _, _; reflexivity.
  - destruct auto as [[|]|], pol as [[| | |]|], noack as [[|]|]; cbn;
      try (right; eexists _, _; reflexivity);
      left; destruct batch; cbn; try destruct (bool_decide (mw > 1)); cbn;
      eexists _, _; reflexivity.
  - intros [ac ->] [na ->] ->. reflexivity.
Qed.

Lemma confluent_factory_refuses_iff_witness :
  ConfluentFactory.create_subscriber
    (Examples.confluent_args None (Some true) (Some true))
  = (["DeprecationWarning: " +:+ ConfluentFactory.auto_commit_deprecated;
      "DeprecationWarning: " +:+ ConfluentFactory.no_ack_deprecated],
     Raise (SetupError ConfluentFactory.no_ack_conflict)).
Proof.
  exact (proj2 (proj2 (confluent_factory_refuses_iff
    (Examples.confluent_args None (Some true) (Some true))))
    (ex_intro _ true eq_refl) (ex_intro _ true eq_refl) eq_refl).
Defined.

(** X18.  The RabbitMQ factory raises [SetupError] exactly when [no_ack]
    and an explicit policy are both given, warns of the deprecation exactly
    when [no_ack] is given, and otherwise builds the subscriber with the
    queue, the exchange, the policy and the toggle as they came. *)
Theorem rabbit_factory_refuses_iff (queue exchange : string) (no_reply : bool)
    (ack_policy : option AckPolicy) (no_ack : option bool) :
  let r := RabbitFactory.create_subscriber queue exchange no_reply ack_policy no_ack in
  ((∃ msg, r.2 = Raise (SetupError msg)) ↔ is_Some no_ack ∧ is_Some ack_policy)
  ∧ (r.1 = ["DeprecationWarning: " +:+ RabbitFactory.no_ack_deprecated] ↔ is_Some no_ack)
  ∧ (r.1 = [] ↔ no_ack = None)
  ∧ (¬ (is_Some no_ack ∧ is_Some ack_policy) →
     r.2 = Ok (RabbitFactory.SpecificationSubscriber
                 {| RabbitFactory.queue := queue; RabbitFactory.exchange := exchange;
                    RabbitFactory.ack_policy := ack_policy;
                    RabbitFactory.no_ack := no_ack;
                    RabbitFactory.no_reply := no_reply |})).
Proof.
  destruct no_ack as [na|], ack_policy as [p|]; cbn;
    (split; [|split; [|split]]).
  all: try (split; [intros [msg H]; try discriminate H; split; by eexists
                   |intros [[? ?] [? ?]]; try discriminate; by eexists]).
  all: try (split; [intros H; try discriminate H; by eexists|intros [? ?]; done]).
  all: try (split; [intros H; by try discriminate H|intros H; by try discriminate H]).
  all: try (intros H; try reflexivity; exfalso; apply H; split; by eexists).
Qed.

Lemma rabbit_factory_refuses_iff_witness :
  (RabbitFactory.create_subscriber "q" "ex" false (Some REJECT_ON_ERROR) None).2
  = Ok (RabbitFactory.SpecificationSubscriber
          {| RabbitFactory.queue := "q"; RabbitFactory.exchange := "ex";
             RabbitFactory.ack_policy := Some REJECT_ON_ERROR;
             RabbitFactory.no_ack := None;
             RabbitFactory.no_reply := false |}).
Proof.
  refine (proj2 (proj2 (proj2
    (rabbit_factory_refuses_iff "q" "ex" false (Some REJECT_ON_ERROR) None))) _).
  intros [[b Hb] _]. discriminate Hb.
Defined.

(** X19.  The aiokafka publisher factory raises exactly when [batch] is
    set and the key is non-empty; a batch publisher may thus be given no key
    or the empty key.  When it succeeds, [batch] alone decides between the
    batch and the default publisher, and the options are stored as given. *)
Theorem kafka_publisher_factory_refuses_iff (batch : bool)
    (key : option (list Byte.byte)) (topic : string) (partition : option Z)
    (headers : option (gmap string string)) (reply_to : string) :
  let options :=
    {| KafkaPublisherFactory.key := key; KafkaPublisherFactory.topic := topic;
       KafkaPublisherFactory.partition := partition;
       KafkaPublisherFactory.headers := headers;
       KafkaPublisherFactory.reply_to := reply_to |} in
  let r := KafkaPublisherFactory.create_publisher batch key topic partition headers
             reply_to in
  ((∃ e, r = Raise e) ↔ batch = true ∧ ∃ b k, key = Some (b :: k))
  ∧ (r = Ok (KafkaPublisherFactory.SpecificationBatchPublisher options)
     ↔ batch = true ∧ (key = None ∨ key = Some []))
  ∧ (r = Ok (KafkaPublisherFactory.SpecificationDefaultPublisher options)
     ↔ batch = false).
Proof.
  intros options r. subst options r. unfold KafkaPublisherFactory.create_publisher.
  destruct batch, key as [[|b k]|]; simpl; (split; [|split]); split;
    try done; try (by intros [? ?]); try (by intros [? [? | ?]]);
    try (by intros [? (? & ? & ?)]); try (by intros; eexists);
    try (intros _; split; [done|]; (by left) || (by right) || (by eexists _, _)).
Qed.

(** ** Publishers, continued *)

(** X20.  Falsy arguments of [publish] count as absent.  An explicit
    partition 0, like no partition, gives the command the publisher's own
    partition, while any other explicit partition is used; an explicit empty
    key gives the publisher's key; an empty topic or reply-to gives the
    publisher's.  A batch command never carries a key, whatever key the
    publisher holds. *)
Theorem publish_falsy_arguments_fall_back {Body : Type} (gen_cor_id : string)
    (self : ConfluentPublisher.LogicPublisher) (message : Body) (messages : list Body)
    (topic : string) (key : option (list Byte.byte)) (partition timestamp_ms : option Z)
    (headers : option (gmap string string)) (correlation_id : option string)
    (reply_to : string) (no_confirm : bool) :
  let cmd := ConfluentPublisher.publish gen_cor_id self message topic key partition
               timestamp_ms headers correlation_id reply_to no_confirm in
  let cmdb := ConfluentPublisher.publish_batch gen_cor_id self messages topic partition
                timestamp_ms headers correlation_id reply_to no_confirm in
  (partition = None ∨ partition = Some 0 →
     ConfluentPublisher.cmd_partition cmd = ConfluentPublisher.partition self
     ∧ ConfluentPublisher.cmd_partition cmdb = ConfluentPublisher.partition self)
  ∧ (∀ z, partition = Some z → z ≠ 0 →
     ConfluentPublisher.cmd_partition cmd = Some z
     ∧ ConfluentPublisher.cmd_partition cmdb = Some z)
  ∧ (key = None ∨ key = Some [] →
     ConfluentPublisher.cmd_key cmd = ConfluentPublisher.key self)
  ∧ (∀ b k, key = Some (b :: k) → ConfluentPublisher.cmd_key cmd = Some (b :: k))
  ∧ (topic = "" → ConfluentPublisher.cmd_topic cmd = ConfluentPublisher.topic self)
  ∧ (reply_to = "" →
     ConfluentPublisher.cmd_reply_to cmd = ConfluentPublisher.reply_to self)
  ∧ ConfluentPublisher.cmd_key cmdb = None.
Proof.
  intros cmd cmdb. subst cmd cmdb. simpl.
  split; [|split; [|split; [|split; [|split; [|split]]]]].
  - by intros [-> | ->].
  - intros z -> Hz. unfold ConfluentPublisher.int_or. by destruct (decide (z = 0)).
  - by intros [-> | ->].
  - by intros b k ->.
  - by intros ->.
  - by intros ->.
  - reflexivity.
Qed.

Lemma publish_falsy_arguments_fall_back_witness :
  ConfluentPublisher.cmd_partition
    (ConfluentPublisher.publish "uuid-1"
       {| ConfluentPublisher.topic := "orders";
          ConfluentPublisher.partition := Some 3;
          ConfluentPublisher.reply_to := "";
          ConfluentPublisher.headers := ∅;
          ConfluentPublisher.key := None |}
       "hello" "" None (Some 0) None None None "" false) = Some 3.
Proof.
  exact (proj1 (proj1 (publish_falsy_arguments_fall_back "uuid-1"
    {| ConfluentPublisher.topic := "orders";
       ConfluentPublisher.partition := Some 3;
       ConfluentPublisher.reply_to := "";
       ConfluentPublisher.headers := ∅;
       ConfluentPublisher.key := None |}
    "hello" [] "" None (Some 0) None None None "" false) (or_intror eq_refl))).
Defined.

(** X21.  A prefix renames the publisher's own topic, not a topic given to
    the call: after [add_prefix], [publish] without a topic sends to the
    prefixed topic, and [publish] with an explicit topic sends to that topic
    unprefixed. *)
Theorem publish_after_add_prefix {Body : Type} (gen_cor_id prefix : string)
    (self : ConfluentPublisher.LogicPublisher) (message : Body)
    (topic : string) (key : option (list Byte.byte)) (partition timestamp_ms : option Z)
    (headers : option (gmap string string)) (correlation_id : option string)
    (reply_to : string) (no_confirm : bool) :
  ConfluentPublisher.cmd_topic
    (ConfluentPublisher.publish gen_cor_id
       (ConfluentPublisherMore.add_prefix prefix self) message "" key partition
       timestamp_ms headers correlation_id reply_to no_confirm)
  = prefix +:+ ConfluentPublisher.topic self
  ∧ (topic ≠ "" →
     ConfluentPublisher.cmd_topic
       (ConfluentPublisher.publish gen_cor_id
          (ConfluentPublisherMore.add_prefix prefix self) message topic key partition
          timestamp_ms headers correlation_id reply_to no_confirm)
     = topic).
Proof.
  split; [reflexivity|].
  intros Ht. simpl. unfold ConfluentPublisher.topic_or. by destruct (decide (topic = "")).
Qed.

Lemma publish_after_add_prefix_witness :
  ConfluentPublisher.cmd_topic
    (ConfluentPublisher.publish "uuid-1"
       (ConfluentPublisherMore.add_prefix "dev." Examples.publisher) "hello" "audit"
       None None None None None "" false)
  = "audit".
Proof.
  refine (proj2 (publish_after_add_prefix "uuid-1" "dev." Examples.publisher "hello"
    "audit" None None None None None "" false) _).
  discriminate.
Defined.

(** X22.  [DefaultPublisher.request] addresses its command as [publish]
    does: for the same arguments the two commands agree on topic, key,
    partition, headers and correlation id, and differ in their publish type.
    The request of the base publisher takes the key as given, without the
    fall-back to the publisher's key. *)
Theorem request_agrees_with_publish {Body Timeout : Type} (gen_cor_id : string)
    (self : ConfluentPublisher.LogicPublisher) (message : Body)
    (topic : string) (key : option (list Byte.byte)) (partition timestamp_ms : option Z)
    (headers : option (gmap string string)) (correlation_id : option string)
    (reply_to : string) (no_confirm : bool) (timeout : Timeout) :
  let cmd := ConfluentPublisher.publish gen_cor_id self message topic key partition
               timestamp_ms headers correlation_id reply_to no_confirm in
  let req := ConfluentPublisherMore.DefaultPublisher_request gen_cor_id self message
               topic key partition timestamp_ms headers correlation_id timeout in
  let base := ConfluentPublisherMore.LogicPublisher_request gen_cor_id self message
                topic key partition timestamp_ms headers correlation_id timeout in
  ConfluentPublisherMore.r_topic req = ConfluentPublisher.cmd_topic cmd
  ∧ ConfluentPublisherMore.r_key req = ConfluentPublisher.cmd_key cmd
  ∧ ConfluentPublisherMore.r_partition req = ConfluentPublisher.cmd_partition cmd
  ∧ ConfluentPublisherMore.r_headers req = ConfluentPublisher.cmd_headers cmd
  ∧ ConfluentPublisherMore.r_correlation_id req = ConfluentPublisher.correlation_id cmd
  ∧ ConfluentPublisherMore.r_publish_type req = ConfluentPublisher.REQUEST
  ∧ ConfluentPublisher._publish_type cmd = ConfluentPublisher.PUBLISH
  ∧ ConfluentPublisherMore.r_key base = key.
Proof. repeat split. Qed.

(** ** Schemas *)

(** X23.  A Redis [StreamSub] is refused exactly when one of [group] and
    [consumer] is given (non-empty) and the other is not.  Otherwise it is
    built: its [last_id] is "$" when none was given and the given one
    otherwise, [no_ack] is stored as given, and the only warning there can
    be, issued exactly when group, consumer and [no_ack] are all set, says
    that [no_ack] has no effect. *)
Theorem stream_sub_group_and_consumer (stream : option string)
    (polling_interval : option Z) (group consumer : option string)
    (batch no_ack : bool) (last_id : option string) (maxlen max_records : option Z) :
  let r := RedisStreamSub.__init__ stream polling_interval group consumer batch no_ack
             last_id maxlen max_records in
  (r = ([], Raise (SetupError RedisStreamSub.group_consumer_both))
   ↔ RedisStreamSub.str_truthy group ≠ RedisStreamSub.str_truthy consumer)
  ∧ (RedisStreamSub.str_truthy group = RedisStreamSub.str_truthy consumer →
     r = (if RedisStreamSub.str_truthy group && no_ack
          then ["RuntimeWarning: " +:+ RedisStreamSub.no_ack_no_effect]
          else [],
          Ok {| RedisStreamSub.name := stream;
                RedisStreamSub.polling_interval := polling_interval;
                RedisStreamSub.group := group;
                RedisStreamSub.consumer := consumer;
                RedisStreamSub.batch := batch;
                RedisStreamSub.no_ack := no_ack;
                RedisStreamSub.last_id := default "$" last_id;
                RedisStreamSub.maxlen := maxlen;
                RedisStreamSub.max_records := max_records |})).
Proof.
  intros r. subst r. unfold RedisStreamSub.__init__.
  destruct (RedisStreamSub.str_truthy group), (RedisStreamSub.str_truthy consumer);
    simpl; split.
  - split; [|done]. destruct no_ack; discriminate.
  - intros _. by destruct no_ack, last_id.
  - done.
  - discriminate.
  - done.
  - discriminate.
  - split; [discriminate|done].
  - intros _. by destruct last_id.
Qed.

Lemma stream_sub_group_and_consumer_witness :
  RedisStreamSub.__init__ (Some "events") (Some 100) (Some "g") (Some "c1") false true
    None None None
  = (["RuntimeWarning: " +:+ RedisStreamSub.no_ack_no_effect],
     Ok {| RedisStreamSub.name := Some "events";
           RedisStreamSub.polling_interval := Some 100;
           RedisStreamSub.group := Some "g";
           RedisStreamSub.consumer := Some "c1";
           RedisStreamSub.batch := false;
           RedisStreamSub.no_ack := true;
           RedisStreamSub.last_id := "$";
           RedisStreamSub.maxlen := None;
           RedisStreamSub.max_records := None |}).
Proof.
  exact (proj2 (stream_sub_group_and_consumer (Some "events") (Some 100) (Some "g")
    (Some "c1") false true None None None) eq_refl).
Defined.

(** X24.  Building a [RabbitExchange] never fails.  When the deprecated
    [passive] is given it decides [declare], as its negation, whatever
    [declare] was passed; otherwise [declare] is stored as passed.  A runtime
    warning is issued exactly when a routing key is given without [bind_to],
    a deprecation warning exactly when [passive] is given, in that order.
    The [routing] of the exchange is its routing key, or its name when the
    key is empty. *)
Theorem rabbit_exchange_init {ExchangeType AnyDict Timeout : Type}
    (name : string) (type : ExchangeType) (durable auto_delete declare : bool)
    (passive : option bool) (arguments : option AnyDict) (timeout : option Timeout)
    (robust : bool)
    (bind_to : option (RabbitExchangeSchema.RabbitExchange
                         (ExchangeType := ExchangeType) (AnyDict := AnyDict)
                         (Timeout := Timeout)))
    (bind_arguments : option AnyDict) (routing_key : string) :
  ∃ e, RabbitExchangeSchema.__init__ name type durable auto_delete declare passive
         arguments timeout robust bind_to bind_arguments routing_key
       = ((if negb (bool_decide (routing_key = ""))
              && match bind_to with None => true | Some _ => false end
           then ["RuntimeWarning: " +:+ RabbitExchangeSchema.routing_key_without_bind_to]
           else [])
          ++ (if passive is Some _
              then ["DeprecationWarning: " +:+ RabbitExchangeSchema.passive_deprecated]
              else []),
          Ok e)
     ∧ RabbitExchangeSchema.declare e = from_option negb declare passive
     ∧ RabbitExchangeSchema.passive e = passive
     ∧ RabbitExchangeSchema.routing e
       = (if decide (routing_key = "") then name else routing_key).
Proof.
  unfold RabbitExchangeSchema.__init__.
  destruct (negb (bool_decide (routing_key = ""))
            && match bind_to with None => true | Some _ => false end),
    passive as [p|]; cbn; eexists; (split; [reflexivity|]); by repeat split.
Qed.

(** X25.  One round of the Redis batch list subscriber either delivers or
    sleeps, never both: it sleeps for the polling interval exactly when the
    pop brought nothing ([None] or the empty list), and otherwise hands all
    the popped payloads, in order, to the handler as one "blist" message on
    the subscriber's list name.  It never delivers an empty batch. *)
Theorem redis_batch_round {Client Call : Type}
    (r : RedisList.Subscriber (Client := Client) (Call := Call))
    (raw_msgs : option (list (list Byte.byte))) :
  (RedisListConsume.BatchListSubscriber_get_msgs r raw_msgs
   = [RedisListConsume.SleepPollingInterval]
   ↔ raw_msgs = None ∨ raw_msgs = Some [])
  ∧ (∀ m ms, raw_msgs = Some (m :: ms) →
     RedisListConsume.BatchListSubscriber_get_msgs r raw_msgs
     = [RedisListConsume.ConsumeBatch
          {| RedisListConsume.b_type := "blist";
             RedisListConsume.b_channel := RedisList.name (RedisList.list_sub r);
             RedisListConsume.b_data := m :: ms |}])
  ∧ (∀ msg, RedisListConsume.ConsumeBatch msg
            ∈ RedisListConsume.BatchListSubscriber_get_msgs r raw_msgs →
     RedisListConsume.b_data msg ≠ [] ∧ raw_msgs = Some (RedisListConsume.b_data msg)).
Proof.
  destruct raw_msgs as [[|m ms]|]; simpl; (split; [|split]).
  all: try (split; [by auto|done]).
  all: try (split; [discriminate|by intros [?|?]]).
  all: try by intros ? ? [= <- <-].
  all: try done.
  all: intros msg H; apply list_elem_of_In in H; simpl in H;
       destruct H as [H|[]]; try discriminate H.
  injection H as <-. by split.
Qed.

Lemma redis_batch_round_witness :
  RedisListConsume.BatchListSubscriber_get_msgs (Examples.redis_subscriber ["h"])
    (Some [[Byte.x41]; []])
  = [RedisListConsume.ConsumeBatch
       {| RedisListConsume.b_type := "blist";
          RedisListConsume.b_channel := "jobs";
          RedisListConsume.b_data := [[Byte.x41]; []] |}].
Proof.
  exact (proj1 (proj2 (redis_batch_round (Examples.redis_subscriber ["h"])
    (Some [[Byte.x41]; []]))) [Byte.x41] [[]] eq_refl).
Defined.
